(** * KPBot: the Discord message relay of [src/index.js]

    A shallow embedding of the two event handlers of the bot
    ([messageCreate], [interactionCreate]) and of the image helper
    [urlToGenerativePart], together with the properties of the
    forwarding and moderation policy.

    JavaScript strings are sequences of UTF-16 code units; they are
    modelled as lists of [N].  Asynchronous calls to the chat platform,
    to the HTTP client and to the generative model are answered by a
    [World] (an oracle that may let every single call fail); a handler
    is a computation that extends a trace of the calls it issued and
    ends like a JavaScript statement list: normally, by [return], or by
    a thrown error. *)

From Stdlib Require Import List NArith Bool Arith Lia String Ascii.
Import ListNotations.

(* ================================================================== *)
(** * JavaScript strings *)

Module JsString.

(** A string value: its UTF-16 code units. *)
Definition jsstring := list N.

(** An ASCII literal of the source as a [jsstring]. *)
Definition js (s : string) : jsstring :=
  map N_of_ascii (list_ascii_of_string s).

Definition jsstring_eqb (a b : jsstring) : bool :=
  if list_eq_dec N.eq_dec a b then true else false.

(** [String.prototype.startsWith]. *)
Fixpoint startsWith (s p : jsstring) {struct p} : bool :=
  match p, s with
  | [], _ => true
  | c :: p', d :: s' => N.eqb c d && startsWith s' p'
  | _ :: _, [] => false
  end.

(** [String.prototype.split] with a one-unit separator: the pieces
    between the occurrences of [sep] (always at least one piece). *)
Fixpoint split (sep : N) (s : jsstring) : list jsstring :=
  match s with
  | [] => [[]]
  | c :: s' =>
      if N.eqb c sep then [] :: split sep s'
      else match split sep s' with
           | piece :: pieces => (c :: piece) :: pieces
           | [] => [[c]]
           end
  end.

(** ** Character classes of the regular-expression engine *)

(** [\d]: the ASCII digits. *)
Definition is_digit (c : N) : bool := (48 <=? c)%N && (c <=? 57)%N.

(** [\s], which is also what [String.prototype.trim] removes: the
    ECMAScript WhiteSpace and LineTerminator code points. *)
Definition is_space (c : N) : bool :=
  ((9 <=? c) && (c <=? 13) (* TAB LF VT FF CR *)
   || (c =? 32) || (c =? 160) || (c =? 5760)
   || (8192 <=? c) && (c <=? 8202)
   || (c =? 8232) || (c =? 8233) || (c =? 8239) || (c =? 8287)
   || (c =? 12288) || (c =? 65279))%N.

Fixpoint drop_while (p : N -> bool) (s : jsstring) : jsstring :=
  match s with
  | c :: s' => if p c then drop_while p s' else s
  | [] => []
  end.

(** [String.prototype.trim]. *)
Definition trim (s : jsstring) : jsstring :=
  rev (drop_while is_space (rev (drop_while is_space s))).

(** ** The pattern [/<@!?\d+>\s*/]

    [match_mention s] matches the pattern at the very start of [s] and
    returns what follows the match.  The quantifiers are greedy; no
    shorter choice can succeed where the greedy one fails (after fewer
    digits the next unit is a digit, not [>]; without the [!] the next
    unit is [!], not a digit), so backtracking never changes the
    answer. *)
Definition match_mention (s : jsstring) : option jsstring :=
  match s with
  | lt :: at_ :: s1 =>
      if (lt =? 60)%N && (at_ =? 64)%N then
        let s2 := match s1 with
                  | bang :: s1' => if (bang =? 33)%N then s1' else s1
                  | [] => s1
                  end in
        match s2 with
        | d :: s2' =>
            if is_digit d then
              match drop_while is_digit s2' with
              | gt :: s3 =>
                  if (gt =? 62)%N then Some (drop_while is_space s3) else None
              | [] => None
              end
            else None
        | [] => None
        end
      else None
  | _ => None
  end.

(** [s.replace(/<@!?\d+>\s*/, '')]: the pattern carries no [g] flag, so
    only the leftmost match is removed; without a match the string is
    returned as it is. *)
Fixpoint replace_mention (s : jsstring) : jsstring :=
  match s with
  | [] => []
  | c :: s' =>
      match match_mention s with
      | Some rest => rest
      | None => c :: replace_mention s'
      end
  end.

End JsString.
Export JsString.

(* ================================================================== *)
(** * Base64, as [Buffer.prototype.toString('base64')] produces it *)

Module Base64.

(** The contents of a [Buffer]. *)
Definition bytes := list Byte.byte.

(** The standard alphabet of RFC 4648, section 4. *)
Definition alphabet : jsstring :=
  js "ABCDEFGHIJKLMNOPQRSTUVWXYZabcdefghijklmnopqrstuvwxyz0123456789+/".

(** The padding unit [=]. *)
Definition pad : N := 61.

(** The code unit that stands for a 6-bit group. *)
Definition encode_sextet (v : N) : N := nth (N.to_nat v) alphabet pad.

(** The 24-bit group of three octets. *)
Definition group24 (a b c : Byte.byte) : N :=
  N.lor (N.lor (N.shiftl (Byte.to_N a) 16) (N.shiftl (Byte.to_N b) 8))
        (Byte.to_N c).

Definition sextet (n : N) (k : N) : N := N.land (N.shiftr n (6 * k)) 63.

(** [buffer.toString('base64')]: three octets give four units; a final
    group of one or two octets is zero-filled and padded with [=]. *)
Fixpoint toString_base64 (buffer : bytes) : jsstring :=
  match buffer with
  | a :: b :: c :: rest =>
      let n := group24 a b c in
      encode_sextet (sextet n 3) :: encode_sextet (sextet n 2)
        :: encode_sextet (sextet n 1) :: encode_sextet (sextet n 0)
        :: toString_base64 rest
  | [a; b] =>
      let n := group24 a b Byte.x00 in
      [encode_sextet (sextet n 3); encode_sextet (sextet n 2);
       encode_sextet (sextet n 1); pad]
  | [a] =>
      let n := group24 a Byte.x00 Byte.x00 in
      [encode_sextet (sextet n 3); encode_sextet (sextet n 2); pad; pad]
  | [] => []
  end.

(** ** The reverse direction (RFC 4648 decoding) *)

(** The 6-bit group a code unit stands for. *)
Definition decode_sextet (c : N) : option N :=
  if ((65 <=? c) && (c <=? 90))%N then Some (c - 65)%N        (* A-Z *)
  else if ((97 <=? c) && (c <=? 122))%N then Some (c - 71)%N  (* a-z *)
  else if ((48 <=? c) && (c <=? 57))%N then Some (c + 4)%N    (* 0-9 *)
  else if (c =? 43)%N then Some 62%N                          (* + *)
  else if (c =? 47)%N then Some 63%N                          (* / *)
  else None.

Definition octet (n : N) (k : N) : Byte.byte :=
  match Byte.of_N (N.land (N.shiftr n (8 * k)) 255) with
  | Some b => b
  | None => Byte.x00
  end.

Definition ungroup24 (v3 v2 v1 v0 : N) : N :=
  N.lor (N.lor (N.lor (N.shiftl v3 18) (N.shiftl v2 12)) (N.shiftl v1 6)) v0.

(** Decoding of a padded base64 text; [None] on anything that is not
    one. *)
Fixpoint decode_base64 (s : jsstring) : option bytes :=
  match s with
  | [] => Some []
  | c3 :: c2 :: c1 :: c0 :: rest =>
      match decode_sextet c3, decode_sextet c2 with
      | Some v3, Some v2 =>
          match decode_sextet c1, decode_sextet c0, rest with
          | Some v1, Some v0, _ =>
              let n := ungroup24 v3 v2 v1 v0 in
              match decode_base64 rest with
              | Some tail => Some (octet n 2 :: octet n 1 :: octet n 0 :: tail)
              | None => None
              end
          | Some v1, None, [] =>
              if (c0 =? pad)%N then
                let n := ungroup24 v3 v2 v1 0 in
                Some [octet n 2; octet n 1]
              else None
          | None, None, [] =>
              if ((c1 =? pad) && (c0 =? pad))%N then
                Some [octet (ungroup24 v3 v2 0 0) 2]
              else None
          | _, _, _ => None
          end
      | _, _ => None
      end
  | _ => None
  end.

End Base64.
Export Base64.

(* ================================================================== *)
(** * Events, worlds and handler computations *)

Module Runtime.

(** ** The data of the chat platform, as the handlers read it *)

Record User := {
  user_id : jsstring;          (* user.id *)
  bot : bool;                  (* user.bot *)
  username : jsstring;         (* user.username *)
}.

Record Channel := {
  channel_id : jsstring;       (* channel.id *)
  isThread : bool;             (* channel.isThread() *)
  parentId : option jsstring;  (* channel.parentId, possibly null *)
}.

Record Attachment := {
  contentType : option jsstring;  (* attachment.contentType, possibly null *)
  url : jsstring;
}.

(** [message.mentions.users] is a collection keyed by user id; the
    handlers only ask [has]. *)
Record Message := {
  author : User;
  channel : Channel;
  content : jsstring;
  attachments : list Attachment;   (* in the collection's order *)
  mentions_users : list jsstring;
}.

Record Interaction := {
  isButton : bool;             (* interaction.isButton() *)
  customId : jsstring;         (* interaction.customId *)
  user : User;                 (* interaction.user *)
}.

Definition has (users : list jsstring) (id : jsstring) : bool :=
  existsb (jsstring_eqb id) users.

(** ** What the bot hands to its collaborators *)

(** A content part of a model request: [{ text }] or
    [{ inlineData: { data, mimeType } }]. *)
Inductive Part :=
| Text (text : jsstring)
| InlineData (data : jsstring) (mimeType : jsstring).

(** The constant [persona] object given as system instruction. *)
Inductive SystemInstruction := persona.

Inductive ChannelType := PrivateThread.
Inductive ButtonStyle := Danger.

Record Button := {
  custom_id : jsstring;   (* setCustomId *)
  label : jsstring;       (* setLabel *)
  style : ButtonStyle;    (* setStyle *)
  emoji : jsstring;       (* setEmoji *)
}.

Inductive Error := error (reason : jsstring).

(** The calls a handler issues, each on the objects of the event it
    handles: [message_delete] is [message.delete()], [author_send] is
    [message.author.send(..)], [thread_send t] is [send] on the thread
    that [message.startThread] returned as [t]. *)
Inductive Call :=
| message_delete
| author_send (text : jsstring)
| channel_sendTyping
| axios_get (url : jsstring)
| generateContent (systemInstruction : SystemInstruction) (model : jsstring)
                  (contentParts : list Part)
| message_startThread (name : jsstring) (type : ChannelType)
| thread_send (thread : jsstring) (text : jsstring)
              (components : list (list Button))
| message_reply (text : jsstring) (ephemeral : bool)
| interaction_reply (text : jsstring) (ephemeral : bool)
| interaction_channel_delete
| console_error (label : option jsstring) (err : Error).

Inductive Value :=
| undefined
| arraybuffer (data : bytes)
| generated (text : jsstring)
| thread_created (thread : jsstring).

(** How the promise of a call settles. *)
Inductive Outcome :=
| fulfilled (v : Value)
| rejected (e : Error).

Inductive Event := Ev (c : Call) (r : Outcome).

Definition Trace := list Event.

(** The environment of one handler run: it decides, from what has
    happened so far, how each call settles. *)
Record World := {
  discord : Trace -> Call -> option Error;  (* [Some e]: the call fails *)
  http : Trace -> jsstring -> Error + bytes;
  gemini : Trace -> list Part -> Error + jsstring;
  new_thread : Trace -> jsstring -> Error + jsstring;
}.

Definition settle (w : World) (tr : Trace) (c : Call) : Outcome :=
  match c with
  | axios_get u =>
      match http w tr u with
      | inl e => rejected e
      | inr data => fulfilled (arraybuffer data)
      end
  | generateContent _ _ parts =>
      match gemini w tr parts with
      | inl e => rejected e
      | inr t => fulfilled (generated t)
      end
  | message_startThread name _ =>
      match new_thread w tr name with
      | inl e => rejected e
      | inr t => fulfilled (thread_created t)
      end
  | console_error _ _ => fulfilled undefined
  | _ =>
      match discord w tr c with
      | Some e => rejected e
      | None => fulfilled undefined
      end
  end.

(** ** Statement lists *)

(** How an [async] function's promise settles. *)
Inductive Settled :=
| fulfils
| rejects (e : Error).

(** Completion of a statement list: it falls through with a value, it
    executes [return p] (the function's promise then follows [p]), or
    it throws. *)
Inductive Completion (A : Type) :=
| normal (a : A)
| returned (p : Settled)
| thrown (e : Error).

Arguments normal {A} a.
Arguments returned {A} p.
Arguments thrown {A} e.

Definition M (A : Type) := World -> Trace -> Completion A * Trace.

Definition ret {A} (a : A) : M A := fun _ tr => (normal a, tr).

Definition bind {A B} (m : M A) (k : A -> M B) : M B :=
  fun w tr =>
    match m w tr with
    | (normal a, tr') => k a w tr'
    | (returned p, tr') => (returned p, tr')
    | (thrown e, tr') => (thrown e, tr')
    end.

(** [return p;] *)
Definition return_ {A} (p : Settled) : M A := fun _ tr => (returned p, tr).

(** [if (c) { body }] *)
Definition when (c : bool) (body : M unit) : M unit :=
  if c then body else ret tt.

(** [try { body } catch (err) { handler err }]: only a throw inside
    [body] reaches the handler. *)
Definition try_catch {A} (body : M A) (handler : Error -> M A) : M A :=
  fun w tr =>
    match body w tr with
    | (thrown e, tr') => handler e w tr'
    | done => done
    end.

(** Issuing a call: the event is recorded with the way it settles. *)
Definition start (c : Call) : M Outcome :=
  fun w tr => let r := settle w tr c in (normal r, tr ++ [Ev c r]).

(** [await p]: a rejection is thrown where the [await] stands. *)
Definition await (c : Call) : M Value :=
  bind (start c) (fun r =>
    match r with
    | fulfilled v => ret v
    | rejected e => fun _ tr => (thrown e, tr)
    end).

(** A promise that is handed on without [await]. *)
Definition promise (c : Call) : M Settled :=
  bind (start c) (fun r =>
    match r with
    | fulfilled _ => ret fulfils
    | rejected e => ret (rejects e)
    end).

(** The promise of an [async] function whose body is [body], run on an
    event in world [w]; the trace lists the calls it issued. *)
Definition async (body : M unit) (w : World) : Settled * Trace :=
  match body w [] with
  | (normal _, tr) => (fulfils, tr)
  | (returned p, tr) => (p, tr)
  | (thrown e, tr) => (rejects e, tr)
  end.

End Runtime.
Export Runtime.

Declare Scope js_scope.
Delimit Scope js_scope with js_.
Notation "x <- m ;; k" := (bind m (fun x => k))
  (at level 61, m at next level, right associativity) : js_scope.
Notation "m ;; k" := (bind m (fun _ => k))
  (at level 61, right associativity) : js_scope.
Open Scope js_scope.

(* ================================================================== *)
(** * The bot *)

Module KPBot.

(** The configuration read once at start-up: [process.env.ALLOWED_CHANNEL_ID]
    and the id of the logged-in bot user, [client.user.id]. *)
Record Env := {
  ALLOWED_CHANNEL_ID : jsstring;
  client_user_id : jsstring;
}.

(** Reading the fields of a settled value. *)
Definition response_data (v : Value) : bytes :=
  match v with arraybuffer data => data | _ => [] end.

Definition response_text (v : Value) : jsstring :=
  match v with generated t => t | _ => [] end.

Definition thread_of (v : Value) : jsstring :=
  match v with thread_created t => t | _ => [] end.

(** [urlToGenerativePart(url, mimeType)] *)
Definition urlToGenerativePart (url mimeType : jsstring) : M Part :=
  response <- await (axios_get url) ;;
  let buffer := response_data response in
  ret (InlineData (toString_base64 buffer) mimeType).

(** ** The texts the bot sends *)

Definition removal_notice (channel : jsstring) : jsstring :=
  js "Your message in the <#" ++ channel
  ++ js "> channel was removed. Please only use this channel to start a new session by mentioning the bot (@KP Trades Bot).".

Definition prompt_request : jsstring :=
  js "Please provide a prompt when you mention me!".

Definition failure_notice : jsstring :=
  js "An error occurred while processing your request. Please try again later.".

Definition thread_name (name : jsstring) : jsstring :=
  js "Private Chat with " ++ name.

Definition analysis (author_id text : jsstring) : jsstring :=
  js "<@" ++ author_id ++ js ">, here is your analysis: " ++ [10; 10]%N ++ text.

(** The four code units the source file holds where a lock emoji was
    meant. *)
Definition lock : jsstring := [240; 376; 8221; 8217]%N.

Definition denial : jsstring :=
  js "You are not authorized to close this session.".

Definition closing : jsstring :=
  lock ++ js " This session has been closed. Deleting thread...".

Definition model_name : jsstring := js "gemini-1.5-flash-latest".

(** The [closeButton] of a session opened for [author_id]. *)
Definition closeButton (author_id : jsstring) : Button :=
  {| custom_id := js "close_thread_" ++ author_id;
     label := js "Close Session";
     style := Danger;
     emoji := lock |}.

Definition is_image (attachment : Attachment) : bool :=
  match contentType attachment with
  | Some t => startsWith t (js "image/")
  | None => false
  end.

Definition is_empty (s : jsstring) : bool :=
  match s with [] => true | _ => false end.

(** ** The [messageCreate] listener *)

Definition messageCreate (env : Env) (message : Message) : M unit :=
  when (bot (author message)) (return_ fulfils) ;;

  let isAllowedChannel :=
    jsstring_eqb (channel_id (channel message)) (ALLOWED_CHANNEL_ID env) in
  let isAllowedThread :=
    isThread (channel message)
    && match parentId (channel message) with
       | Some p => jsstring_eqb p (ALLOWED_CHANNEL_ID env)
       | None => false
       end in
  let mentioned := has (mentions_users message) (client_user_id env) in

  when (isAllowedChannel && negb mentioned)
    (try_catch
       (await message_delete ;;
        await (author_send (removal_notice (channel_id (channel message)))) ;;
        ret tt)
       (fun err =>
          start (console_error
                   (Some (js "Could not delete message or DM user:")) err) ;;
          ret tt) ;;
     return_ fulfils) ;;

  when (negb isAllowedChannel && negb isAllowedThread) (return_ fulfils) ;;
  when (isAllowedThread && negb mentioned) (return_ fulfils) ;;
  when (isAllowedChannel && negb mentioned) (return_ fulfils) ;;

  try_catch
    (await channel_sendTyping ;;

     let prompt := trim (replace_mention (content message)) in
     let contentParts := [Text prompt] in

     contentParts <-
       match attachments message with
       | attachment :: _ =>
           if is_image attachment then
             imagePart <-
               urlToGenerativePart
                 (url attachment)
                 (match contentType attachment with Some t => t | None => [] end) ;;
             ret (contentParts ++ [imagePart])
           else ret contentParts
       | [] => ret contentParts
       end ;;

     when (is_empty prompt && (List.length contentParts =? 1))
       (p <- promise (message_reply prompt_request true) ;;
        return_ p) ;;

     result <- await (generateContent persona model_name contentParts) ;;
     let text := response_text result in

     if isAllowedChannel && negb (isThread (channel message)) then
       thread <-
         await (message_startThread
                  (thread_name (username (author message))) PrivateThread) ;;
       let row := [closeButton (user_id (author message))] in
       await (thread_send (thread_of thread)
                (analysis (user_id (author message)) text) [row]) ;;
       await message_delete ;;
       ret tt
     else
       await (message_reply text false) ;;
       ret tt)
    (fun err =>
       start (console_error (Some (js "An error occurred:")) err) ;;
       p <- promise (message_reply failure_notice true) ;;
       match p with
       | rejects e => start (console_error None e) ;; ret tt
       | fulfils => ret tt
       end).

(** ** The [interactionCreate] listener *)

(** [customId.split('_')[2]], [None] standing for [undefined]. *)
Definition threadOwnerId_of (customId : jsstring) : option jsstring :=
  nth_error (split 95 customId) 2.

(** [a !== b] where [b] may be [undefined]. *)
Definition strict_neq (a : jsstring) (b : option jsstring) : bool :=
  match b with
  | Some b' => negb (jsstring_eqb a b')
  | None => true
  end.

Definition interactionCreate (interaction : Interaction) : M unit :=
  when (negb (isButton interaction)
        || negb (startsWith (customId interaction) (js "close_thread_")))
    (return_ fulfils) ;;

  let threadOwnerId := threadOwnerId_of (customId interaction) in

  when (strict_neq (user_id (user interaction)) threadOwnerId)
    (await (interaction_reply denial true) ;;
     return_ fulfils) ;;

  try_catch
    (await (interaction_reply closing true) ;;
     await interaction_channel_delete ;;
     ret tt)
    (fun err =>
       start (console_error (Some (js "Failed to delete thread:")) err) ;;
       ret tt).

(** ** Running a listener on one event *)

Definition on_messageCreate (env : Env) (w : World) (message : Message)
  : Settled * Trace :=
  async (messageCreate env message) w.

Definition on_interactionCreate (w : World) (interaction : Interaction)
  : Settled * Trace :=
  async (interactionCreate interaction) w.

End KPBot.
Export KPBot.

(* ================================================================== *)
(** * Reading a trace *)

Module Observe.

Definition call_of (ev : Event) : Call := let (c, _) := ev in c.

Definition calls (tr : Trace) : list Call := map call_of tr.

(** The call [c] was issued during the run. *)
Definition issued (c : Call) (tr : Trace) : Prop := In c (calls tr).

Definition is_generateContent (c : Call) : bool :=
  match c with generateContent _ _ _ => true | _ => false end.

Definition is_startThread (c : Call) : bool :=
  match c with message_startThread _ _ => true | _ => false end.

Definition is_thread_send (c : Call) : bool :=
  match c with thread_send _ _ _ => true | _ => false end.

Definition is_axios_get (c : Call) : bool :=
  match c with axios_get _ => true | _ => false end.

(** How many calls of a kind the run issued. *)
Definition count (kind : Call -> bool) (tr : Trace) : nat :=
  List.length (filter kind (calls tr)).

(** The AI Responder was invoked. *)
Definition responder_invoked (tr : Trace) : bool :=
  existsb is_generateContent (calls tr).

(** The message of a call carries a Close Session control: a button
    whose identifier the [interactionCreate] listener accepts. *)
Definition bears_close_control (c : Call) : bool :=
  match c with
  | thread_send _ _ components =>
      existsb
        (existsb (fun b => startsWith (custom_id b) (js "close_thread_")))
        components
  | _ => false
  end.

(** The calls a listener issued for one event, in order. *)
Definition message_trace (env : Env) (w : World) (message : Message) : Trace :=
  snd (on_messageCreate env w message).

Definition interaction_trace (w : World) (interaction : Interaction) : Trace :=
  snd (on_interactionCreate w interaction).

(** The call [c] was issued and its promise fulfilled. *)
Definition delivered (c : Call) (tr : Trace) : Prop :=
  exists v, In (Ev c (fulfilled v)) tr.

Definition succeeded (r : Outcome) : bool :=
  match r with fulfilled _ => true | rejected _ => false end.

(** A message with a Close Session control was sent successfully. *)
Definition sent_control (ev : Event) : bool :=
  let (c, r) := ev in bears_close_control c && succeeded r.

Definition deletes_message (ev : Event) : bool :=
  match call_of ev with message_delete => true | _ => false end.

(** Along [tr], no event of kind [late] comes before the first event
    of kind [early]. *)
Fixpoint only_after (early late : Event -> bool) (tr : Trace) : bool :=
  match tr with
  | [] => true
  | ev :: tr' =>
      if late ev then false
      else if early ev then true
      else only_after early late tr'
  end.

(** The attachment the listener looks at: the first one, when it is an
    image. *)
Definition first_image (message : Message) : option Attachment :=
  match attachments message with
  | attachment :: _ => if is_image attachment then Some attachment else None
  | [] => None
  end.

(** The three tests of the listener, as functions of the message. *)
Definition isAllowedChannel (env : Env) (message : Message) : bool :=
  jsstring_eqb (channel_id (channel message)) (ALLOWED_CHANNEL_ID env).

Definition isAllowedThread (env : Env) (message : Message) : bool :=
  isThread (channel message)
  && match parentId (channel message) with
     | Some p => jsstring_eqb p (ALLOWED_CHANNEL_ID env)
     | None => false
     end.

Definition mentioned (env : Env) (message : Message) : bool :=
  has (mentions_users message) (client_user_id env).

(** The message qualifies for generation: it passes every check that
    precedes the [try] block of the listener. *)
Definition qualifies (env : Env) (message : Message) : bool :=
  negb (bot (author message))
  && (isAllowedChannel env message || isAllowedThread env message)
  && mentioned env message.

End Observe.
Export Observe.

(* ================================================================== *)
(** * What the pattern removes, said without the matcher *)

Module Mention.

(** The text of a user mention: [<@], an optional [!], one or more
    digits, [>]. *)
Definition mention_token (tok : jsstring) : Prop :=
  exists bang digits,
    tok = [60; 64]%N ++ bang ++ digits ++ [62]%N
    /\ (bang = [] \/ bang = [33]%N)
    /\ digits <> []
    /\ forallb is_digit digits = true.

Definition spaces (ws : jsstring) : Prop := forallb is_space ws = true.

Definition no_leading_space (rest : jsstring) : Prop :=
  match rest with
  | c :: _ => is_space c = false
  | [] => True
  end.

(** No mention token starts at one of the first [n] positions of [s]. *)
Definition no_mention_before (n : nat) (s : jsstring) : Prop :=
  forall a tok b,
    s = a ++ tok ++ b -> mention_token tok -> n <= List.length a.

(** [first_mention_removed s s']: [s'] is [s] without its first mention
    token and the white space that follows the token; [s'] is [s] when
    [s] holds no mention token. *)
Inductive first_mention_removed : jsstring -> jsstring -> Prop :=
| fmr_absent s :
    (forall n, no_mention_before n s) ->
    first_mention_removed s s
| fmr_strip pre tok ws rest :
    mention_token tok ->
    spaces ws ->
    no_leading_space rest ->
    no_mention_before (List.length pre) (pre ++ tok ++ ws ++ rest) ->
    first_mention_removed (pre ++ tok ++ ws ++ rest) (pre ++ rest).

(** The reading under which only the bot's own mention, standing at the
    start of the text, is stripped: the text loses a leading
    [<@id>] or [<@!id>] of the bot and is left alone otherwise. *)
Definition strip_leading_bot_mention (bot_id text : jsstring) : jsstring :=
  if startsWith text (js "<@" ++ bot_id ++ js ">") then
    skipn (List.length (js "<@" ++ bot_id ++ js ">")) text
  else if startsWith text (js "<@!" ++ bot_id ++ js ">") then
    skipn (List.length (js "<@!" ++ bot_id ++ js ">")) text
  else text.

End Mention.
Export Mention.

(* ================================================================== *)
(** * Sample events *)

Module Samples.

Definition env0 : Env :=
  {| ALLOWED_CHANNEL_ID := js "100"; client_user_id := js "111" |}.

(** Every call succeeds; the model answers [ok], a download yields
    three octets, the new thread is [T1]. *)
Definition calm : World :=
  {| discord := fun _ _ => None;
     http := fun _ _ => inr [Byte.x4d; Byte.x61; Byte.x6e];
     gemini := fun _ _ => inr (js "ok");
     new_thread := fun _ _ => inr (js "T1") |}.

Definition outage : Error := error (js "Missing Access").

(** The chat platform refuses every call. *)
Definition refusing : World :=
  {| discord := fun _ _ => Some outage;
     http := fun _ _ => inr [Byte.x4d; Byte.x61; Byte.x6e];
     gemini := fun _ _ => inr (js "ok");
     new_thread := fun _ _ => inr (js "T1") |}.

(** Only replies to the message are refused. *)
Definition reply_refusing : World :=
  {| discord := fun _ c =>
       match c with message_reply _ _ => Some outage | _ => None end;
     http := fun _ _ => inr [Byte.x4d; Byte.x61; Byte.x6e];
     gemini := fun _ _ => inr (js "ok");
     new_thread := fun _ _ => inr (js "T1") |}.

Definition alice : User :=
  {| user_id := js "222"; bot := false; username := js "alice" |}.

Definition carol : User :=
  {| user_id := js "333"; bot := false; username := js "carol" |}.

Definition webhook : User :=
  {| user_id := js "444"; bot := true; username := js "feed" |}.

Definition main_channel : Channel :=
  {| channel_id := js "100"; isThread := false; parentId := None |}.

Definition session_thread : Channel :=
  {| channel_id := js "500"; isThread := true; parentId := Some (js "100") |}.

Definition mk_message (who : User) (where_ : Channel) (what : jsstring)
    (files : list Attachment) (pinged : list jsstring) : Message :=
  {| author := who; channel := where_; content := what;
     attachments := files; mentions_users := pinged |}.

(** "Analyze AAPL", addressed to the bot in the allowed channel. *)
Definition ask_aapl : Message :=
  mk_message alice main_channel (js "<@111> Analyze AAPL") [] [js "111"].

(** The same question inside a session thread. *)
Definition ask_in_thread : Message :=
  mk_message alice session_thread (js "<@111> Analyze AAPL") [] [js "111"].

(** A message in the allowed channel that mentions nobody. *)
Definition hello : Message :=
  mk_message alice main_channel (js "hello") [] [].

(** The same, posted by a bot account. *)
Definition feed_post : Message :=
  mk_message webhook main_channel (js "hello") [] [].

(** Only the mention: the prompt is empty. *)
Definition bare_mention : Message :=
  mk_message alice main_channel (js "<@111>") [] [js "111"].

(** Another user is mentioned first, the bot later. *)
Definition mention_of_carol_first : Message :=
  mk_message alice main_channel (js "<@333> ask <@111>") []
    [js "333"; js "111"].

(** The bot is mentioned in the middle of the text. *)
Definition mention_mid_text : Message :=
  mk_message alice main_channel (js "price of <@111> AAPL") [] [js "111"].

Definition chart_png : Attachment :=
  {| contentType := Some (js "image/png"); url := js "https://cdn/chart.png" |}.

Definition report_pdf : Attachment :=
  {| contentType := Some (js "application/pdf");
     url := js "https://cdn/report.pdf" |}.

(** An image as the first attachment. *)
Definition chart_first : Message :=
  mk_message alice main_channel (js "<@111> read this") [chart_png]
    [js "111"].

(** An image as the second attachment, after a document. *)
Definition chart_second : Message :=
  mk_message alice main_channel (js "<@111> read this")
    [report_pdf; chart_png] [js "111"].

Definition click (who : User) (id : jsstring) : Interaction :=
  {| isButton := true; customId := id; user := who |}.

End Samples.
Export Samples.

(* ================================================================== *)
(** * Start-up of the process *)

Module Startup.

(** The variables the script reads from [process.env] once
    [dotenv.config()] has run; [None] stands for [undefined]. *)
Record ProcessEnv := {
  env_ALLOWED_CHANNEL_ID : option jsstring;
  env_BOT_TOKEN : option jsstring;
  env_GEMINI_API_KEY : option jsstring;
}.

(** [!!v] for a variable of the environment: it is set and is not the
    empty string. *)
Definition truthy (v : option jsstring) : bool :=
  match v with
  | Some (_ :: _) => true
  | _ => false
  end.

(** A boolean inside a template literal. *)
Definition template_bool (b : bool) : jsstring :=
  if b then js "true" else js "false".

(** What the top level of the script does to the outside. *)
Inductive Effect :=
| stderr (line : jsstring)             (* console.error *)
| stdout (line : jsstring)             (* console.log *)
| process_exit (code : N)
| client_login (token : option jsstring).

Definition fatal_line : jsstring :=
  js "FATAL ERROR: ALLOWED_CHANNEL_ID is not set in the .env file. The bot cannot start.".

(** The top-level statements in their order: the pre-flight check, the
    debugging block, the login.  [process.exit] ends the script. *)
Definition main (e : ProcessEnv) : list Effect :=
  if negb (truthy (env_ALLOWED_CHANNEL_ID e)) then
    [stderr fatal_line; process_exit 1]
  else
    [stdout (js "--- CHECKING ENVIRONMENT VARIABLES ---");
     stdout (js "Bot Token found: " ++ template_bool (truthy (env_BOT_TOKEN e)));
     stdout (js "Gemini Key found: "
             ++ template_bool (truthy (env_GEMINI_API_KEY e)));
     stdout (js "Channel ID found: "
             ++ template_bool (truthy (env_ALLOWED_CHANNEL_ID e)));
     stdout (js "------------------------------------");
     client_login (env_BOT_TOKEN e)].

(** The lines written to the console. *)
Definition printed (effects : list Effect) : list jsstring :=
  flat_map (fun f => match f with
                     | stderr line | stdout line => [line]
                     | _ => []
                     end) effects.

(** The [ready] listener, [tag] being [client.user.tag]. *)
Definition ready (tag : jsstring) : list Effect :=
  [stdout (js "Bot is logged in as " ++ tag
           ++ js " and ready to serve in your designated channel!")].

Definition logs_in (effects : list Effect) : bool :=
  existsb (fun f => match f with client_login _ => true | _ => false end)
          effects.

(** Start-up as a whole: the top-level statements, then the [ready]
    listener when the script has logged in and the platform signals
    readiness; [readiness] is the tag of the logged-in user that the
    platform reports, [None] when it never signals readiness. *)
Definition startup (e : ProcessEnv) (readiness : option jsstring)
  : list Effect :=
  main e ++ match readiness with
            | Some tag => if logs_in (main e) then ready tag else []
            | None => []
            end.

End Startup.
Export Startup.

(* ================================================================== *)
(** * More ways to read a trace *)

Module Tally.

Definition is_message_delete (c : Call) : bool :=
  match c with message_delete => true | _ => false end.

Definition is_interaction_reply (c : Call) : bool :=
  match c with interaction_reply _ _ => true | _ => false end.

(** The label under which the relay logs a failure. *)
Definition relay_failure_label : option jsstring :=
  Some (js "An error occurred:").

(** The activation of a button by a user. *)
Definition activation (button : Button) (clicker : User) : Interaction :=
  {| isButton := true; customId := custom_id button; user := clicker |}.

End Tally.
Export Tally.

(* ================================================================== *)
(** * More sample events *)

Module MoreSamples.

Definition timeout : Error := error (js "ETIMEDOUT").

Definition quota : Error := error (js "429 Too Many Requests").

(** The chat platform works; downloads fail. *)
Definition offline : World :=
  {| discord := fun _ _ => None;
     http := fun _ _ => inl timeout;
     gemini := fun _ _ => inr (js "ok");
     new_thread := fun _ _ => inr (js "T1") |}.

(** The chat platform works; the model refuses. *)
Definition model_down : World :=
  {| discord := fun _ _ => None;
     http := fun _ _ => inr [Byte.x4d; Byte.x61; Byte.x6e];
     gemini := fun _ _ => inl quota;
     new_thread := fun _ _ => inr (js "T1") |}.

(** Two environments that differ in their secrets only. *)
Definition deployed : ProcessEnv :=
  {| env_ALLOWED_CHANNEL_ID := Some (js "100");
     env_BOT_TOKEN := Some (js "token-one");
     env_GEMINI_API_KEY := Some (js "key-one") |}.

Definition redeployed : ProcessEnv :=
  {| env_ALLOWED_CHANNEL_ID := Some (js "100");
     env_BOT_TOKEN := Some (js "another-token");
     env_GEMINI_API_KEY := Some (js "another-key") |}.

End MoreSamples.
Export MoreSamples.

(* ================================================================== *)
(** * Facts on strings *)

Section JsStringFacts.

Lemma jsstring_eqb_eq a b : jsstring_eqb a b = true <-> a = b.
Proof.
  unfold jsstring_eqb. destruct (list_eq_dec N.eq_dec a b); split; congruence.
Qed.

Lemma jsstring_eqb_neq a b : jsstring_eqb a b = false <-> a <> b.
Proof.
  unfold jsstring_eqb. destruct (list_eq_dec N.eq_dec a b); split; congruence.
Qed.

Lemma startsWith_app p s : startsWith (p ++ s) p = true.
Proof.
  induction p as [|c p IH]; simpl; [reflexivity|].
  now rewrite N.eqb_refl.
Qed.

Lemma startsWith_inv s p : startsWith s p = true -> exists r, s = p ++ r.
Proof.
  revert s. induction p as [|c p IH]; intros s H; simpl in *.
  - now exists s.
  - destruct s as [|d s]; [discriminate|].
    apply andb_prop in H as [Hc Hs]. apply N.eqb_eq in Hc. subst d.
    destruct (IH _ Hs) as [r ->]. now exists r.
Qed.

(** [split] always yields a piece. *)
Lemma split_nonempty sep s : split sep s <> [].
Proof.
  destruct s as [|c s]; simpl; [discriminate|].
  destruct (c =? sep)%N; [discriminate|].
  destruct (split sep s); discriminate.
Qed.

(** A string that does not hold the separator is a single piece. *)
Lemma split_without_separator sep s :
  ~ In sep s -> split sep s = [s].
Proof.
  induction s as [|c s IH]; simpl; intros H; [reflexivity|].
  destruct (N.eqb_spec c sep) as [->|_]; [tauto|].
  rewrite IH by tauto. reflexivity.
Qed.

End JsStringFacts.

(* ================================================================== *)
(** * The matcher removes the first mention, and nothing else *)

Section MentionFacts.

Lemma drop_while_app p l r :
  forallb p l = true -> drop_while p (l ++ r) = drop_while p r.
Proof.
  induction l as [|c l IH]; simpl; intros H; [reflexivity|].
  apply andb_prop in H as [Hc Hl]. rewrite Hc. auto.
Qed.

Lemma drop_while_stop p r :
  match r with c :: _ => p c = false | [] => True end -> drop_while p r = r.
Proof. destruct r as [|c r]; simpl; intros H; [reflexivity|now rewrite H]. Qed.

(** [drop_while] splits a string into the longest prefix of units that
    satisfy [p] and a rest that does not start with such a unit. *)
Lemma drop_while_split p s :
  exists l, s = l ++ drop_while p s /\ forallb p l = true
            /\ match drop_while p s with c :: _ => p c = false | [] => True end.
Proof.
  induction s as [|c s (l & E & Hl & Hr)]; simpl.
  - exists []. auto.
  - destruct (p c) eqn:Hc.
    + exists (c :: l). simpl. rewrite Hc, Hl. repeat split; auto. now f_equal.
    + exists []. simpl. auto.
Qed.

Lemma digit_not_bang d : is_digit d = true -> (d =? 33)%N = false.
Proof.
  unfold is_digit. intros H. apply andb_prop in H as [H1 H2].
  apply N.leb_le in H1. apply N.eqb_neq. lia.
Qed.

(** The matcher accepts a mention token at the start of the string and
    consumes all the white space after it. *)
Lemma match_mention_complete tok ws rest :
  mention_token tok -> spaces ws -> no_leading_space rest ->
  match_mention (tok ++ ws ++ rest) = Some rest.
Proof.
  intros (bang & digits & -> & Hbang & Hne & Hd) Hws Hrest.
  destruct digits as [|d ds]; [congruence|].
  simpl in Hd. apply andb_prop in Hd as [Hd Hds].
  assert (Hrun : drop_while is_space (ws ++ rest) = rest).
  { rewrite drop_while_app by assumption. now apply drop_while_stop. }
  assert (Hdigits : drop_while is_digit (ds ++ 62%N :: ws ++ rest)
                    = 62%N :: ws ++ rest).
  { now rewrite drop_while_app by assumption. }
  destruct Hbang as [-> | ->]; simpl; rewrite <- app_assoc; simpl.
  - now rewrite (digit_not_bang d Hd), Hd, Hdigits, Hrun.
  - now rewrite Hd, Hdigits, Hrun.
Qed.

(** Whatever the matcher accepts is a mention token followed by white
    space, and the white space is consumed to its end. *)
Lemma match_mention_sound s r :
  match_mention s = Some r ->
  exists tok ws,
    mention_token tok /\ spaces ws /\ no_leading_space r /\ s = tok ++ ws ++ r.
Proof.
  unfold match_mention.
  destruct s as [|lt [|at_ s1]]; try discriminate.
  destruct (lt =? 60)%N eqn:Hlt; [|discriminate].
  destruct (at_ =? 64)%N eqn:Hat; [|discriminate]. cbn [andb].
  apply N.eqb_eq in Hlt, Hat. subst lt at_.
  assert (Hcore : forall s2,
    match s2 with
    | d :: s2' =>
        if is_digit d then
          match drop_while is_digit s2' with
          | gt :: s3 => if (gt =? 62)%N then Some (drop_while is_space s3) else None
          | [] => None
          end
        else None
    | [] => None
    end = Some r ->
    exists digits ws, digits <> [] /\ forallb is_digit digits = true
      /\ spaces ws /\ no_leading_space r /\ s2 = digits ++ [62%N] ++ ws ++ r).
  { intros [|d s2'] H; [discriminate|].
    destruct (is_digit d) eqn:Hd; [|discriminate].
    destruct (drop_while_split is_digit s2') as (ds & E & Hds & _).
    destruct (drop_while is_digit s2') as [|gt s3]; [discriminate|].
    destruct (gt =? 62)%N eqn:Hgt; [|discriminate].
    apply N.eqb_eq in Hgt. subst gt. injection H as <-.
    destruct (drop_while_split is_space s3) as (ws & E' & Hws & Hstop).
    exists (d :: ds), ws. repeat split.
    - discriminate.
    - simpl. now rewrite Hd.
    - exact Hws.
    - exact Hstop.
    - rewrite E at 1. rewrite E' at 1. reflexivity. }
  intros H.
  destruct s1 as [|bang s1'].
  - discriminate.
  - destruct (bang =? 33)%N eqn:Hb.
    + apply N.eqb_eq in Hb. subst bang.
      destruct (Hcore s1' H) as (digits & ws & Hne & Hd & Hws & Hr & ->).
      exists ([60; 64]%N ++ [33%N] ++ digits ++ [62%N]), ws. repeat split; auto.
      * exists [33%N], digits. auto.
      * simpl. now rewrite <- !app_assoc.
    + destruct (Hcore (bang :: s1') H) as (digits & ws & Hne & Hd & Hws & Hr & E).
      exists ([60; 64]%N ++ [] ++ digits ++ [62%N]), ws. repeat split; auto.
      * exists [], digits. auto.
      * simpl. rewrite E. now rewrite <- !app_assoc.
Qed.

Lemma mention_token_matches tok b :
  mention_token tok -> match_mention (tok ++ b) <> None.
Proof.
  intros Htok.
  destruct (drop_while_split is_space b) as (ws & E & Hws & Hstop).
  rewrite E, (match_mention_complete tok ws _ Htok Hws Hstop). discriminate.
Qed.

Lemma mention_token_nonempty tok : mention_token tok -> tok <> [].
Proof. intros (bang & digits & -> & _). discriminate. Qed.

Lemma replace_mention_cons c s :
  replace_mention (c :: s)
  = match match_mention (c :: s) with
    | Some rest => rest
    | None => c :: replace_mention s
    end.
Proof. reflexivity. Qed.

(** [replace_mention] removes the first mention token of the string. *)
Lemma replace_mention_spec s : first_mention_removed s (replace_mention s).
Proof.
  induction s as [|c s IH].
  - simpl. apply fmr_absent. intros n a tok b E Htok.
    destruct a; [|discriminate]. destruct tok; [|discriminate].
    now apply mention_token_nonempty in Htok.
  - rewrite replace_mention_cons.
    destruct (match_mention (c :: s)) as [rest|] eqn:Hm.
    + destruct (match_mention_sound _ _ Hm) as (tok & ws & Htok & Hws & Hr & E).
      rewrite E. apply (fmr_strip [] tok ws rest); auto.
      intros a tok' b _ _. simpl. lia.
    + assert (Hhead : forall a tok b,
                c :: s = a ++ tok ++ b -> mention_token tok ->
                exists a', a = c :: a' /\ s = a' ++ tok ++ b).
      { intros [|c' a'] tok b E Htok.
        - exfalso. simpl in E. rewrite E in Hm.
          now apply (mention_token_matches tok b Htok).
        - injection E as <- E. now exists a'. }
      clear Hm. remember (replace_mention s) as r eqn:Er. clear Er.
      destruct IH as [s Habs | pre tok ws rest Htok Hws Hr Hbefore].
      * apply fmr_absent. intros n a tok b E Htok.
        destruct (Hhead _ _ _ E Htok) as (a' & -> & E').
        specialize (Habs n a' tok b E' Htok). simpl. lia.
      * change (c :: pre ++ tok ++ ws ++ rest) with ((c :: pre) ++ tok ++ ws ++ rest).
        change (c :: pre ++ rest) with ((c :: pre) ++ rest).
        apply fmr_strip; auto.
        intros a tok' b E Htok'.
        destruct (Hhead a tok' b E Htok') as (a' & -> & E').
        specialize (Hbefore a' tok' b E' Htok'). simpl. lia.
Qed.

Lemma app_same_length {A} (a a' b b' : list A) :
  a ++ b = a' ++ b' -> List.length a = List.length a' -> a = a' /\ b = b'.
Proof.
  revert a'. induction a as [|x a IH]; intros [|x' a'] E L; try discriminate.
  - auto.
  - simpl in E. injection E as -> E. simpl in L. injection L as L.
    destruct (IH _ E L) as [-> ->]. auto.
Qed.

(** [first_mention_removed] determines its result. *)
Lemma first_mention_removed_unique s r1 r2 :
  first_mention_removed s r1 -> first_mention_removed s r2 -> r1 = r2.
Proof.
  intros H1 H2.
  destruct H1 as [s Habs | pre tok ws rest Htok Hws Hr Hbefore].
  - inversion H2 as [s' _ Es Er | pre tok ws rest Htok Hws Hr Hbefore Es Er];
      [reflexivity|].
    exfalso. subst s.
    specialize (Habs (S (List.length pre)) pre tok (ws ++ rest) eq_refl Htok). lia.
  - inversion H2 as [s' Habs Es Er | pre' tok' ws' rest' Htok' Hws' Hr' Hbefore' Es Er].
    + exfalso.
      specialize (Habs (S (List.length pre)) pre tok (ws ++ rest) eq_refl Htok). lia.
    + pose proof (Hbefore pre' tok' (ws' ++ rest') (eq_sym Es) Htok') as L1.
      pose proof (Hbefore' pre tok (ws ++ rest) Es Htok) as L2.
      destruct (app_same_length _ _ _ _ Es (Nat.le_antisymm _ _ L2 L1)) as [-> E].
      f_equal.
      pose proof (match_mention_complete tok ws rest Htok Hws Hr) as M.
      pose proof (match_mention_complete tok' ws' rest' Htok' Hws' Hr') as M'.
      rewrite E in M'. congruence.
Qed.

Lemma replace_mention_iff s r :
  first_mention_removed s r <-> replace_mention s = r.
Proof.
  split.
  - intros H. apply (first_mention_removed_unique s); [apply replace_mention_spec | exact H].
  - intros <-. apply replace_mention_spec.
Qed.

End MentionFacts.

(* ================================================================== *)
(** * Base64 decoding undoes [toString_base64] *)

Section Base64Facts.

Local Open Scope N_scope.

(** Below a multiple of [2 ^ k], [lor] with a [k]-bit number adds it. *)
Lemma lor_mul_low a b k : b < 2 ^ k -> N.lor (a * 2 ^ k) b = a * 2 ^ k + b.
Proof.
  intros Hb. rewrite <- N.shiftl_mul_pow2.
  assert (Hdisj : N.land (N.shiftl a k) b = 0).
  { apply N.bits_inj. intros i. rewrite N.land_spec, N.bits_0.
    destruct (N.lt_ge_cases i k) as [Hi|Hi].
    - now rewrite N.shiftl_spec_low.
    - rewrite <- (N.mod_small b (2 ^ k)) by assumption.
      rewrite N.mod_pow2_bits_high by assumption. apply andb_false_r. }
  rewrite <- N.lxor_lor by assumption.
  now rewrite <- N.add_nocarry_lxor by assumption.
Qed.

Lemma to_N_lt (x : Byte.byte) : Byte.to_N x < 256.
Proof. pose proof (Byte.to_N_bounded x). lia. Qed.

(** The bit operations of the encoder and of the decoder as sums. *)
Lemma group24_sum a b c :
  group24 a b c = Byte.to_N a * 65536 + Byte.to_N b * 256 + Byte.to_N c.
Proof.
  unfold group24.
  pose proof (to_N_lt a). pose proof (to_N_lt b). pose proof (to_N_lt c).
  rewrite !N.shiftl_mul_pow2.
  rewrite (lor_mul_low (Byte.to_N a) _ 16)
    by (change (2 ^ 8) with 256; change (2 ^ 16) with 65536; lia).
  assert (E : Byte.to_N a * 2 ^ 16 + Byte.to_N b * 2 ^ 8
              = (Byte.to_N a * 256 + Byte.to_N b) * 2 ^ 8)
    by (change (2 ^ 8) with 256; change (2 ^ 16) with 65536; lia).
  rewrite E, lor_mul_low by (change (2 ^ 8) with 256; lia).
  change (2 ^ 8) with 256. lia.
Qed.

Lemma sextet_div n k : sextet n k = (n / 2 ^ (6 * k)) mod 64.
Proof.
  unfold sextet. rewrite N.shiftr_div_pow2.
  change 63 with (N.ones 6). now rewrite N.land_ones.
Qed.

Lemma sextet_lt n k : sextet n k < 64.
Proof. rewrite sextet_div. apply N.mod_upper_bound. lia. Qed.

Lemma ungroup24_sum v3 v2 v1 v0 :
  v2 < 64 -> v1 < 64 -> v0 < 64 ->
  ungroup24 v3 v2 v1 v0 = v3 * 262144 + v2 * 4096 + v1 * 64 + v0.
Proof.
  intros H2 H1 H0. unfold ungroup24.
  rewrite !N.shiftl_mul_pow2.
  rewrite (lor_mul_low v3 _ 18)
    by (change (2 ^ 12) with 4096; change (2 ^ 18) with 262144; lia).
  assert (E : v3 * 2 ^ 18 + v2 * 2 ^ 12 = (v3 * 64 + v2) * 2 ^ 12)
    by (change (2 ^ 12) with 4096; change (2 ^ 18) with 262144; lia).
  rewrite E, (lor_mul_low _ _ 12)
    by (change (2 ^ 12) with 4096; change (2 ^ 6) with 64; lia).
  assert (E' : (v3 * 64 + v2) * 2 ^ 12 + v1 * 2 ^ 6
               = ((v3 * 64 + v2) * 64 + v1) * 2 ^ 6)
    by (change (2 ^ 12) with 4096; change (2 ^ 6) with 64; lia).
  rewrite E', lor_mul_low by (change (2 ^ 6) with 64; lia).
  change (2 ^ 6) with 64. lia.
Qed.

(** The four sextets of a 24-bit group give the group back. *)
Lemma regroup n :
  n < 16777216 ->
  ungroup24 (sextet n 3) (sextet n 2) (sextet n 1) (sextet n 0) = n.
Proof.
  intros Hn. rewrite ungroup24_sum by apply sextet_lt.
  rewrite !sextet_div.
  change (2 ^ (6 * 3)) with 262144. change (2 ^ (6 * 2)) with 4096.
  change (2 ^ (6 * 1)) with 64. change (2 ^ (6 * 0)) with 1.
  rewrite N.div_1_r.
  replace (n / 262144) with (n / 64 / 64 / 64) by (rewrite !N.Div0.div_div; reflexivity).
  replace (n / 4096) with (n / 64 / 64) by (rewrite !N.Div0.div_div; reflexivity).
  pose proof (N.div_mod n 64). pose proof (N.div_mod (n / 64) 64).
  pose proof (N.div_mod (n / 64 / 64) 64).
  pose proof (N.mod_upper_bound n 64). pose proof (N.mod_upper_bound (n / 64) 64).
  pose proof (N.mod_upper_bound (n / 64 / 64) 64).
  assert (n / 64 / 64 / 64 < 64).
  { rewrite !N.Div0.div_div. apply N.Div0.div_lt_upper_bound. exact Hn. }
  rewrite (N.mod_small (n / 64 / 64 / 64)) by assumption.
  lia.
Qed.

(** The three octets of a 24-bit group are the octets it was made of. *)
Lemma octet_of_sum a b c n :
  n = Byte.to_N a * 65536 + Byte.to_N b * 256 + Byte.to_N c ->
  octet n 2 = a /\ octet n 1 = b /\ octet n 0 = c.
Proof.
  intros ->. unfold octet.
  rewrite !N.shiftr_div_pow2. change 255 with (N.ones 8). rewrite !N.land_ones.
  change (2 ^ (8 * 2)) with 65536. change (2 ^ (8 * 1)) with 256.
  change (2 ^ (8 * 0)) with 1. change (2 ^ 8) with 256.
  pose proof (to_N_lt a). pose proof (to_N_lt b). pose proof (to_N_lt c).
  set (x := Byte.to_N a * 65536 + Byte.to_N b * 256 + Byte.to_N c).
  assert (E2 : x / 65536 = Byte.to_N a).
  { symmetry. apply N.div_unique with (r := Byte.to_N b * 256 + Byte.to_N c); subst x; lia. }
  assert (E1 : x / 256 = Byte.to_N a * 256 + Byte.to_N b).
  { symmetry. apply N.div_unique with (r := Byte.to_N c); subst x; lia. }
  rewrite E2, E1, N.div_1_r.
  rewrite (N.mod_small (Byte.to_N a)) by assumption.
  assert (M1 : (Byte.to_N a * 256 + Byte.to_N b) mod 256 = Byte.to_N b).
  { symmetry. apply N.mod_unique with (q := Byte.to_N a); lia. }
  assert (M0 : x mod 256 = Byte.to_N c).
  { symmetry. apply N.mod_unique with (q := Byte.to_N a * 256 + Byte.to_N b); subst x; lia. }
  rewrite M1, M0. now rewrite !Byte.of_to_N.
Qed.

(** The alphabet is read back unit by unit. *)
Lemma decode_encode_sextet v : v < 64 -> decode_sextet (encode_sextet v) = Some v.
Proof.
  intros Hv.
  assert (Hall : forallb (fun i => match decode_sextet (encode_sextet i) with
                                   | Some j => j =? i
                                   | None => false
                                   end) (map N.of_nat (seq 0 64)) = true)
    by (vm_compute; reflexivity).
  rewrite forallb_forall in Hall.
  specialize (Hall v). 
  destruct (decode_sextet (encode_sextet v)) as [j|].
  - f_equal. apply N.eqb_eq. apply Hall.
    apply in_map_iff. exists (N.to_nat v). split; [apply N2Nat.id|].
    apply in_seq. lia.
  - exfalso. assert (false = true); [|discriminate]. apply Hall.
    apply in_map_iff. exists (N.to_nat v). split; [apply N2Nat.id|].
    apply in_seq. lia.
Qed.

Lemma decode_pad : decode_sextet pad = None.
Proof. reflexivity. Qed.

(** Induction over a buffer three octets at a time. *)
Lemma triple_ind (P : bytes -> Prop) :
  P [] -> (forall a, P [a]) -> (forall a b, P [a; b]) ->
  (forall a b c rest, P rest -> P (a :: b :: c :: rest)) ->
  forall buffer, P buffer.
Proof.
  intros H0 H1 H2 H3.
  assert (H : forall n buffer, (List.length buffer <= n)%nat -> P buffer).
  { induction n as [|n IH]; intros buffer Hlen.
    - destruct buffer; [exact H0 | simpl in Hlen; lia].
    - destruct buffer as [|a [|b [|c rest]]]; auto.
      apply H3, IH. simpl in Hlen. lia. }
  intros buffer. now apply (H (List.length buffer)).
Qed.

Lemma sextet_low_zero n q : n = q * 64 -> sextet n 0 = 0.
Proof.
  intros ->. rewrite sextet_div. change (2 ^ (6 * 0)) with 1.
  rewrite N.div_1_r. symmetry. apply N.mod_unique with (q := q); lia.
Qed.

Lemma sextet_1_zero n q : n = q * 4096 -> sextet n 1 = 0.
Proof.
  intros ->. rewrite sextet_div. change (2 ^ (6 * 1)) with 64.
  assert (E : q * 4096 / 64 = q * 64).
  { symmetry. apply N.div_unique with (r := 0); lia. }
  rewrite E. symmetry. apply N.mod_unique with (q := q); lia.
Qed.

(** Round trip: decoding the base64 text of a buffer yields the buffer. *)
Lemma decode_toString_base64 (buffer : bytes) :
  decode_base64 (toString_base64 buffer) = Some buffer.
Proof.
  induction buffer as [|a|a b|a b c rest IH] using triple_ind.
  - reflexivity.
  - cbn [toString_base64 decode_base64].
    rewrite !decode_encode_sextet by apply sextet_lt.
    rewrite decode_pad, N.eqb_refl. cbn [andb].
    pose proof (group24_sum a Byte.x00 Byte.x00) as E.
    change (Byte.to_N Byte.x00) with 0 in E.
    pose proof (to_N_lt a).
    set (n := group24 a Byte.x00 Byte.x00) in *.
    assert (S1 : sextet n 1 = 0) by (apply sextet_1_zero with (q := Byte.to_N a * 16); lia).
    assert (S0 : sextet n 0 = 0) by (apply sextet_low_zero with (q := Byte.to_N a * 1024); lia).
    assert (R : ungroup24 (sextet n 3) (sextet n 2) 0 0 = n).
    { transitivity (ungroup24 (sextet n 3) (sextet n 2) (sextet n 1) (sextet n 0)).
      - now rewrite S1, S0.
      - apply regroup. lia. }
    rewrite R.
    destruct (octet_of_sum a Byte.x00 Byte.x00 n E) as (-> & _).
    reflexivity.
  - cbn [toString_base64 decode_base64].
    rewrite !decode_encode_sextet by apply sextet_lt.
    rewrite decode_pad, N.eqb_refl.
    pose proof (group24_sum a b Byte.x00) as E.
    change (Byte.to_N Byte.x00) with 0 in E.
    pose proof (to_N_lt a). pose proof (to_N_lt b).
    set (n := group24 a b Byte.x00) in *.
    assert (S0 : sextet n 0 = 0)
      by (apply sextet_low_zero with (q := Byte.to_N a * 1024 + Byte.to_N b * 4); lia).
    assert (R : ungroup24 (sextet n 3) (sextet n 2) (sextet n 1) 0 = n).
    { transitivity (ungroup24 (sextet n 3) (sextet n 2) (sextet n 1) (sextet n 0)).
      - now rewrite S0.
      - apply regroup. lia. }
    cbn [andb]. rewrite R.
    destruct (octet_of_sum a b Byte.x00 n E) as (-> & -> & _).
    reflexivity.
  - cbn [toString_base64 decode_base64].
    rewrite !decode_encode_sextet by apply sextet_lt.
    rewrite IH.
    pose proof (to_N_lt a). pose proof (to_N_lt b). pose proof (to_N_lt c).
    rewrite regroup by (rewrite group24_sum; lia).
    destruct (octet_of_sum a b c (group24 a b c) (group24_sum a b c)) as (-> & -> & ->).
    reflexivity.
Qed.
End Base64Facts.

(* ================================================================== *)
(** * Running the listeners symbolically *)

Arguments js : simpl never.
Arguments settle : simpl never.
Arguments trim : simpl never.
Arguments replace_mention : simpl never.
Arguments toString_base64 : simpl never.
Arguments startsWith : simpl never.
Arguments jsstring_eqb : simpl never.
Arguments has : simpl never.
Arguments is_image : simpl never.
Arguments threadOwnerId_of : simpl never.
Arguments removal_notice : simpl never.
Arguments prompt_request : simpl never.
Arguments failure_notice : simpl never.
Arguments thread_name : simpl never.
Arguments analysis : simpl never.
Arguments closeButton : simpl never.
Arguments closing : simpl never.
Arguments denial : simpl never.
Arguments model_name : simpl never.

Ltac unfold_monad :=
  unfold urlToGenerativePart, try_catch, when, await, promise, start, bind,
    ret, return_ in *.

Ltac unfold_listener :=
  unfold message_trace, interaction_trace, on_messageCreate,
    on_interactionCreate, async, messageCreate, interactionCreate in *;
  unfold_monad.

(** [console.error] never fails. *)
Lemma settle_console_error w tr label e :
  settle w tr (console_error label e) = fulfilled undefined.
Proof. reflexivity. Qed.

(** Case analysis on the way the next call of the run settles. *)
Ltac settle_next :=
  rewrite ?settle_console_error;
  match goal with
  | |- context [settle ?w ?tr ?c] =>
      lazymatch tr with
      | context [settle] => fail
      | _ => idtac
      end;
      let r := fresh "r" in
      let E := fresh "E" in
      destruct (settle w tr c) as [r|r] eqn:E; simpl;
      rewrite ?settle_console_error
  end.

(** Which event of a finite trace a membership hypothesis speaks of. *)
Ltac split_in :=
  repeat match goal with
    | H : In _ _ |- _ => progress simpl in H
    | H : _ \/ _ |- _ => destruct H as [H|H]
    | H : False |- _ => destruct H
    | H : Ev _ _ = Ev _ _ |- _ => inversion H; subst; clear H
    end.

(** What [only_after] decides: every [late] event of the trace has an
    [early] event before it. *)
Lemma only_after_sound early late tr :
  only_after early late tr = true ->
  forall pre ev post,
    tr = pre ++ ev :: post -> late ev = true ->
    exists e, In e pre /\ early e = true.
Proof.
  induction tr as [|x tr IH]; intros H pre ev post E L.
  - destruct pre; discriminate.
  - simpl in H. destruct pre as [|y pre]; simpl in E; injection E as -> E.
    + now rewrite L in H.
    + destruct (late y); [discriminate|].
      destruct (early y) eqn:Ey.
      * exists y. simpl. auto.
      * destruct (IH H pre ev post E L) as (e & He & Hearly).
        exists e. simpl. auto.
Qed.

Lemma closeButton_recognised id :
  startsWith (custom_id (closeButton id)) (js "close_thread_") = true.
Proof. apply startsWith_app. Qed.

Lemma is_image_inv attachment :
  is_image attachment = true ->
  exists mime,
    contentType attachment = Some mime /\ startsWith mime (js "image/") = true.
Proof.
  unfold is_image. destruct (contentType attachment) as [mime|]; [|discriminate].
  intros H. now exists mime.
Qed.

(* ================================================================== *)
(** * The [messageCreate] listener *)

Section MessageCreate.

Variables (env : Env) (w : World).

Lemma qualifies_inv message :
  qualifies env message = true ->
  bot (author message) = false
  /\ mentioned env message = true
  /\ (isAllowedChannel env message || isAllowedThread env message) = true.
Proof.
  unfold qualifies. intros H.
  apply andb_prop in H as [H Hm]. apply andb_prop in H as [Hb Hc].
  apply negb_true_iff in Hb. auto.
Qed.

(** The run of a qualifying message starts at the [try] block. *)
Ltac pass_guards Q :=
  let Hb := fresh "Hb" in
  let Hm := fresh "Hm" in
  let Hc := fresh "Hc" in
  destruct (qualifies_inv _ Q) as (Hb & Hm & Hc);
  unfold isAllowedChannel, isAllowedThread, mentioned in *;
  unfold_listener;
  rewrite Hb, Hm; simpl;
  rewrite <- negb_orb, Hc, ?andb_false_r; simpl.

(** Case analysis on what the [try] block branches on before any call
    of the relay settles. *)
Ltac relay_cases message :=
  destruct (attachments message) as [|? ?];
  [|try match goal with |- context [is_image ?a] => destruct (is_image a) end];
  simpl;
  destruct (is_empty (trim (replace_mention (content message)))); simpl.

(** A message that does not qualify reaches neither the model nor the
    relay: at most it is removed and its author notified. *)
Lemma unqualified_calls message c r :
  qualifies env message = false ->
  In (Ev c r) (message_trace env w message) ->
  is_generateContent c = false /\ is_startThread c = false
  /\ is_thread_send c = false /\ is_axios_get c = false
  /\ c <> channel_sendTyping /\ (forall t e, c <> message_reply t e).
Proof.
  unfold qualifies, isAllowedChannel, isAllowedThread, mentioned.
  intros Q. unfold_listener.
  destruct (bot (author message)); simpl in *; [tauto|].
  destruct (jsstring_eqb (channel_id (channel message)) (ALLOWED_CHANNEL_ID env));
    destruct (has (mentions_users message) (client_user_id env)); simpl in *;
    try discriminate.
  - repeat settle_next; intros H; split_in; simpl; repeat split; congruence.
  - rewrite andb_true_r in Q. rewrite Q. simpl. tauto.
  - destruct (isThread (channel message) && _); simpl; tauto.
Qed.

Lemma generation_qualifies message s m parts r :
  In (Ev (generateContent s m parts) r) (message_trace env w message) ->
  qualifies env message = true.
Proof.
  intros H. destruct (qualifies env message) eqn:Q; [reflexivity|].
  destruct (unqualified_calls _ _ _ Q H) as (G & _). discriminate.
Qed.

(** The qualifying messages are those whose run enters the [try]
    block, which starts with the typing indicator. *)
Lemma qualifies_iff_relay_entered message :
  qualifies env message = true
  <-> issued channel_sendTyping (message_trace env w message).
Proof.
  split.
  - intros Q. unfold issued. pass_guards Q.
    relay_cases message.
    all: destruct (jsstring_eqb (channel_id (channel message))
                     (ALLOWED_CHANNEL_ID env) && negb (isThread (channel message)));
      simpl.
    all: repeat settle_next; simpl; auto.
  - intros H. destruct (qualifies env message) eqn:Q; [reflexivity|].
    unfold issued, calls in H. apply in_map_iff in H as ([c r] & Hc & Hin).
    simpl in Hc. subst c.
    destruct (unqualified_calls _ _ _ Q Hin) as (_ & _ & _ & _ & Hne & _).
    now elim Hne.
Qed.

(** C10.  A message whose author is flagged as a bot account (any bot)
    is dropped before every check of the listener: the run issues no
    call at all, so the message is not deleted, no notice is sent and
    the model is not invoked, wherever the message was posted and
    whether or not it mentions the bot; the listener's promise
    fulfils. *)
Theorem bot_author_ignored message :
  bot (author message) = true ->
  on_messageCreate env w message = (fulfils, []).
Proof. intros H. unfold_listener. now rewrite H. Qed.

(** C1, as the listener implements it.  For a message in the allowed
    channel that does not mention the bot and whose author is not a bot
    account: deleting the message is the first call of the run; when
    the delete succeeds, the next call sends the author the notice on
    the mention-only policy; the model is never invoked. *)
Theorem unmentioned_message_removed message :
  bot (author message) = false ->
  isAllowedChannel env message = true ->
  mentioned env message = false ->
  exists d rest,
    on_messageCreate env w message = (fulfils, Ev message_delete d :: rest)
    /\ (succeeded d = true ->
        exists r rest',
          rest = Ev (author_send (removal_notice (channel_id (channel message)))) r
                   :: rest')
    /\ responder_invoked (Ev message_delete d :: rest) = false.
Proof.
  unfold isAllowedChannel, mentioned. intros Hb Hc Hm.
  unfold_listener. rewrite Hb, Hc, Hm. simpl.
  settle_next; [settle_next|]; eexists; eexists; (split; [reflexivity|]); simpl;
    split; try reflexivity; try discriminate; intros _; eauto.
Qed.

(** C6.  For a qualifying message whose stripped prompt is empty and
    whose first attachment is no image (so that no image part joins the
    text part): the model is not invoked, in whatever world; the run
    opens with the typing indicator; and in every world that lets the
    typing indicator through, the run consists of that indicator and of
    the reply that asks for a prompt. *)
Theorem empty_prompt_asks_for_prompt message :
  qualifies env message = true ->
  trim (replace_mention (content message)) = [] ->
  first_image message = None ->
  responder_invoked (message_trace env w message) = false
  /\ (exists r rest,
        message_trace env w message = Ev channel_sendTyping r :: rest)
  /\ (discord w [] channel_sendTyping = None ->
      exists r,
        message_trace env w message
        = [Ev channel_sendTyping (fulfilled undefined);
           Ev (message_reply prompt_request true) r]).
Proof.
  intros Q Hp Hi. unfold first_image in Hi.
  assert (Htyping : discord w [] channel_sendTyping = None ->
                    settle w [] channel_sendTyping = fulfilled undefined).
  { intros Hd. unfold settle. now rewrite Hd. }
  pass_guards Q. rewrite Hp.
  destruct (attachments message) as [|a others];
    [|destruct (is_image a); [discriminate|]]; simpl.
  all: repeat settle_next; simpl; (split; [reflexivity|]); (split; [eauto|]).
  all: intros Hd; apply Htyping in Hd.
  all: try discriminate Hd; injection Hd as ->; eauto.
Qed.

(** After a generation triggered in the allowed channel itself, the
    message is not deleted before a message with the Close Session
    control was sent successfully. *)
Lemma delete_only_after_send message s m parts r :
  isAllowedChannel env message = true ->
  isThread (channel message) = false ->
  In (Ev (generateContent s m parts) r) (message_trace env w message) ->
  only_after sent_control deletes_message (message_trace env w message) = true.
Proof.
  intros Hc0 Ht G. pose proof (generation_qualifies _ _ _ _ _ G) as Q.
  clear G. pass_guards Q. rewrite Hc0, Ht. simpl.
  relay_cases message.
  all: repeat settle_next; simpl.
  all: rewrite ?closeButton_recognised; reflexivity.
Qed.

(** C3.  After a successful generation triggered in the allowed channel
    (not a thread): exactly one thread creation is issued, a private
    thread on the triggering message; into the thread it returns,
    exactly one message is sent, and it bears the Close Session control
    of the author; and wherever the run deletes the triggering message,
    a message with the control was sent successfully before. *)
Theorem session_thread_opened message s m parts text :
  isAllowedChannel env message = true ->
  isThread (channel message) = false ->
  In (Ev (generateContent s m parts) (fulfilled (generated text)))
     (message_trace env w message) ->
  count is_startThread (message_trace env w message) = 1
  /\ issued (message_startThread (thread_name (username (author message)))
               PrivateThread)
       (message_trace env w message)
  /\ (forall t,
        In (Ev (message_startThread (thread_name (username (author message)))
                  PrivateThread)
               (fulfilled (thread_created t)))
           (message_trace env w message) ->
        count is_thread_send (message_trace env w message) = 1
        /\ count bears_close_control (message_trace env w message) = 1
        /\ issued (thread_send t (analysis (user_id (author message)) text)
                     [[closeButton (user_id (author message))]])
             (message_trace env w message))
  /\ (forall pre r post,
        message_trace env w message = pre ++ Ev message_delete r :: post ->
        exists sent, In sent pre /\ sent_control sent = true).
Proof.
  intros Hc0 Ht G. pose proof (generation_qualifies _ _ _ _ _ G) as Q.
  pose proof (delete_only_after_send _ _ _ _ _ Hc0 Ht G) as Hafter.
  split; [|split; [|split]].
  4:{ intros pre r post E.
      now apply (only_after_sound _ _ _ Hafter pre (Ev message_delete r) post E). }
  all: clear Hafter; revert G; unfold issued, count.
  all: pass_guards Q; rewrite Hc0, Ht; simpl.
  all: relay_cases message.
  all: repeat settle_next; simpl.
  all: intros G; split_in; try discriminate.
  all: rewrite ?closeButton_recognised; simpl; auto 10.
  all: try (intros; split_in; discriminate).
  all: intros; split_in; simpl; rewrite ?closeButton_recognised; simpl;
    repeat split; auto 10.
Qed.

(** C8.  After a successful generation triggered inside a thread whose
    parent is the allowed channel: the generated text is sent as a
    reply to the triggering message; no thread is created, nothing is
    sent into a thread and no Close Session control goes out. *)
Theorem reply_inside_thread message s m parts text :
  isAllowedThread env message = true ->
  In (Ev (generateContent s m parts) (fulfilled (generated text)))
     (message_trace env w message) ->
  issued (message_reply text false) (message_trace env w message)
  /\ count is_startThread (message_trace env w message) = 0
  /\ count is_thread_send (message_trace env w message) = 0
  /\ count bears_close_control (message_trace env w message) = 0.
Proof.
  intros Ht G. pose proof (generation_qualifies _ _ _ _ _ G) as Q.
  assert (Hthread : isThread (channel message) = true).
  { unfold isAllowedThread in Ht. now apply andb_prop in Ht as [? _]. }
  revert G. unfold issued, count.
  pass_guards Q. rewrite Hthread, andb_false_r.
  relay_cases message.
  all: repeat settle_next; simpl.
  all: intros G; split_in; try discriminate.
  all: simpl; repeat split; auto 10.
Qed.

(** C5, as the listener implements it.  For a qualifying message whose
    first attachment declares a content type that starts with [image/]:
    once the typing indicator went through, the attachment is requested
    from its URL; and when the download yields [data], the model is
    invoked with the text part followed by a second part that pairs the
    base64 text of [data] with the declared content type. *)
Theorem first_image_attachment_inlined message attachment :
  qualifies env message = true ->
  first_image message = Some attachment ->
  delivered channel_sendTyping (message_trace env w message) ->
  exists mime,
    contentType attachment = Some mime
    /\ startsWith mime (js "image/") = true
    /\ issued (axios_get (url attachment)) (message_trace env w message)
    /\ forall data,
         In (Ev (axios_get (url attachment)) (fulfilled (arraybuffer data)))
            (message_trace env w message) ->
         issued (generateContent persona model_name
                   [Text (trim (replace_mention (content message)));
                    InlineData (toString_base64 data) mime])
           (message_trace env w message).
Proof.
  intros Q Hi H. unfold first_image in Hi.
  destruct (attachments message) as [|a others] eqn:Ha; [discriminate|].
  destruct (is_image a) eqn:Him; [|discriminate]. injection Hi as <-.
  destruct (is_image_inv _ Him) as (mime & Hct & Hstart).
  exists mime. split; [exact Hct|]. split; [exact Hstart|].
  revert H. unfold delivered, issued.
  pass_guards Q. rewrite Ha, Him, Hct. simpl.
  destruct (is_empty (trim (replace_mention (content message)))); simpl.
  all: destruct (jsstring_eqb (channel_id (channel message))
                   (ALLOWED_CHANNEL_ID env) && negb (isThread (channel message)));
    simpl.
  all: repeat settle_next; simpl.
  all: intros [v H]; split_in; try discriminate.
  all: split; auto 10.
  all: intros; split_in; simpl; auto 10.
Qed.

(** C4, as the listener implements it.  Whenever the model is invoked,
    the first content part is the text part whose text is the trimmed
    message text without its first mention token, whichever user the
    token names and wherever in the text it stands, and without the
    white space that follows the token. *)
Theorem prompt_drops_first_mention message s m parts r :
  In (Ev (generateContent s m parts) r) (message_trace env w message) ->
  exists stripped image,
    first_mention_removed (content message) stripped
    /\ parts = Text (trim stripped) :: image.
Proof.
  intros G. pose proof (generation_qualifies _ _ _ _ _ G) as Q.
  exists (replace_mention (content message)).
  assert (exists image,
            parts = Text (trim (replace_mention (content message))) :: image)
    as [image ->].
  { revert G. pass_guards Q.
    relay_cases message.
    all: destruct (jsstring_eqb (channel_id (channel message))
                     (ALLOWED_CHANNEL_ID env) && negb (isThread (channel message)));
      simpl.
    all: repeat settle_next; simpl.
    all: intros G; split_in; try discriminate; eauto. }
  exists image. split; [apply replace_mention_spec | reflexivity].
Qed.

(** The promise of the listener rejects only through the prompt request,
    which the [try] block returns without awaiting it. *)
Lemma messageCreate_rejects_only_on_prompt_request message e :
  fst (on_messageCreate env w message) = rejects e ->
  In (Ev (message_reply prompt_request true) (rejected e))
     (message_trace env w message).
Proof.
  unfold_listener.
  destruct (bot (author message)); simpl; [discriminate|].
  destruct (jsstring_eqb (channel_id (channel message)) (ALLOWED_CHANNEL_ID env));
    destruct (has (mentions_users message) (client_user_id env));
    destruct (isThread (channel message));
    destruct (parentId (channel message)) as [p|];
    try destruct (jsstring_eqb p (ALLOWED_CHANNEL_ID env)); simpl.
  all: try discriminate.
  all: relay_cases message.
  all: repeat settle_next; simpl; intros H; try discriminate.
  all: injection H as <-; auto 10.
Qed.

End MessageCreate.

(* ================================================================== *)
(** * The [interactionCreate] listener *)

Section InteractionCreate.

Variable w : World.

(** An identifier that starts with [close_thread_] has a third piece. *)
Lemma threadOwnerId_defined customId :
  startsWith customId (js "close_thread_") = true ->
  exists owner, threadOwnerId_of customId = Some owner.
Proof.
  intros H. destruct (startsWith_inv _ _ H) as [r ->].
  unfold threadOwnerId_of.
  change (js "close_thread_" ++ r)
    with ([99; 108; 111; 115; 101; 95; 116; 104; 114; 101; 97; 100; 95]%N ++ r).
  cbn [app split N.eqb Pos.eqb].
  destruct (split 95 r) as [|owner pieces] eqn:E.
  - now apply split_nonempty in E.
  - exists owner. reflexivity.
Qed.

(** The identifier of [closeButton] embeds the author's id as its third
    piece, for every id that holds no underscore (ids of the platform
    are digit strings). *)
Lemma closeButton_embeds_author author_id :
  ~ In 95%N author_id ->
  threadOwnerId_of (custom_id (closeButton author_id)) = Some author_id.
Proof.
  intros H. unfold threadOwnerId_of.
  change (custom_id (closeButton author_id))
    with ([99; 108; 111; 115; 101; 95; 116; 104; 114; 101; 97; 100; 95]%N
            ++ author_id).
  cbn [app split N.eqb Pos.eqb].
  now rewrite (split_without_separator 95 author_id H).
Qed.

(** C2.  For every activation of a Close Session control, [owner] being
    the id embedded as third piece of the control's identifier: the
    thread deletion is issued exactly when the activating user is
    [owner] and the private confirmation reply went through, that reply
    being the first call of the owner's run; for any other user the run
    consists of the private denial alone, so nothing is deleted. *)
Theorem close_session_owner_only interaction :
  isButton interaction = true ->
  startsWith (customId interaction) (js "close_thread_") = true ->
  exists owner,
    threadOwnerId_of (customId interaction) = Some owner
    /\ (issued interaction_channel_delete (interaction_trace w interaction)
        <-> user_id (user interaction) = owner
            /\ delivered (interaction_reply closing true)
                 (interaction_trace w interaction))
    /\ (user_id (user interaction) = owner ->
        exists r rest,
          interaction_trace w interaction
          = Ev (interaction_reply closing true) r :: rest)
    /\ (user_id (user interaction) <> owner ->
        exists r,
          interaction_trace w interaction
          = [Ev (interaction_reply denial true) r]).
Proof.
  intros Hb Hs. destruct (threadOwnerId_defined _ Hs) as [owner Ho].
  exists owner. split; [exact Ho|].
  unfold issued, delivered. unfold_listener.
  rewrite Hb, Hs, Ho. simpl.
  destruct (jsstring_eqb (user_id (user interaction)) owner) eqn:Heq; simpl.
  - apply jsstring_eqb_eq in Heq.
    repeat settle_next; simpl; repeat split; eauto; try tauto.
    all: try (intros; split_in; try discriminate; eauto; tauto).
    all: try (intros [_ [v H]]; split_in; discriminate).
  - apply jsstring_eqb_neq in Heq.
    repeat settle_next; simpl; repeat split; eauto; try tauto.
    all: try (intros; split_in; try discriminate; eauto; tauto).
Qed.

(** The promise of the listener rejects only through the denial reply,
    which stands outside the [try] block. *)
Lemma interactionCreate_rejects_only_on_denial interaction e :
  fst (on_interactionCreate w interaction) = rejects e ->
  In (Ev (interaction_reply denial true) (rejected e))
     (interaction_trace w interaction).
Proof.
  unfold_listener.
  destruct (negb (isButton interaction) || _); simpl; [discriminate|].
  destruct (strict_neq _ _); simpl; repeat settle_next; simpl;
    intros H; try discriminate.
  injection H as <-. auto.
Qed.

End InteractionCreate.

(* ================================================================== *)
(** * The image helper *)

Section UrlToGenerativePart.

Variable w : World.

(** C9.  Whatever octets a download yields and whatever MIME type is
    passed, the part that [urlToGenerativePart] returns carries that
    MIME type and a base64 text that decodes to exactly those octets. *)
Theorem image_part_decodes_to_download tr url mimeType data :
  http w tr url = inr data ->
  exists encoded,
    fst (urlToGenerativePart url mimeType w tr)
    = normal (InlineData encoded mimeType)
    /\ decode_base64 encoded = Some data.
Proof.
  intros H. exists (toString_base64 data). split.
  - unfold_monad. unfold settle. rewrite H. reflexivity.
  - apply decode_toString_base64.
Qed.

End UrlToGenerativePart.

(* ================================================================== *)
(** * The prompt *)

Section PromptFacts.

Lemma drop_while_idem p s : drop_while p (drop_while p s) = drop_while p s.
Proof.
  destruct (drop_while_split p s) as (l & _ & _ & Hstop).
  now apply drop_while_stop.
Qed.

Lemma trim_drop_while s : trim (drop_while is_space s) = trim s.
Proof. unfold trim. now rewrite drop_while_idem. Qed.

(** The trimmed text neither starts nor ends with white space. *)
Lemma trim_no_surrounding_space s :
  no_leading_space (trim s) /\ no_leading_space (rev (trim s)).
Proof.
  unfold trim, no_leading_space. split.
  - destruct (drop_while_split is_space (rev (drop_while is_space s)))
      as (l & E & _ & _).
    destruct (drop_while_split is_space s) as (_ & _ & _ & Hstop).
    apply (f_equal (@rev N)) in E. rewrite rev_involutive, rev_app_distr in E.
    destruct (rev (drop_while is_space (rev (drop_while is_space s))))
      as [|c t]; [exact I|].
    rewrite E in Hstop. exact Hstop.
  - rewrite rev_involutive.
    now destruct (drop_while_split is_space (rev (drop_while is_space s)))
      as (_ & _ & _ & Hstop).
Qed.

Lemma prompt_request_is_no_failure_notice : failure_notice <> prompt_request.
Proof. vm_compute. discriminate. Qed.

(** X14.  For a text that begins with a mention ([<@], an optional [!],
    digits, [>]) the prompt is the trimmed remainder, whatever the
    remainder holds (further mentions included). *)
Theorem leading_mention_stripped bang digits question :
  bang = [] \/ bang = [33%N] ->
  digits <> [] ->
  forallb is_digit digits = true ->
  trim (replace_mention (js "<@" ++ bang ++ digits ++ js ">" ++ question))
  = trim question.
Proof.
  intros Hbang Hne Hd.
  destruct (drop_while_split is_space question) as (ws & E & Hws & Hstop).
  assert (Htok : mention_token ([60; 64]%N ++ bang ++ digits ++ [62]%N))
    by (exists bang, digits; auto).
  pose proof (match_mention_complete _ ws _ Htok Hws Hstop) as M.
  rewrite <- E in M.
  replace (js "<@" ++ bang ++ digits ++ js ">" ++ question)
    with (([60; 64]%N ++ bang ++ digits ++ [62]%N) ++ question)
    by (change (js "<@") with [60; 64]%N; change (js ">") with [62]%N;
        now rewrite <- !app_assoc).
  change (([60; 64]%N ++ bang ++ digits ++ [62]%N) ++ question)
    with (60%N :: ([64%N] ++ bang ++ digits ++ [62%N]) ++ question) in *.
  rewrite replace_mention_cons, M. apply trim_drop_while.
Qed.

(** X15.  A text that holds no [<] passes the replacement unchanged. *)
Theorem text_without_mention_kept s :
  ~ In 60%N s -> replace_mention s = s.
Proof.
  intros H. apply replace_mention_iff. apply fmr_absent.
  intros n a tok b E (bang & digits & -> & _).
  exfalso. apply H. rewrite E. apply in_or_app. right. simpl. auto.
Qed.

End PromptFacts.

(* ================================================================== *)
(** * Every run of [messageCreate] *)


(** The whole case analysis of one run of the listener: the tests on
    the message first, then the way each call settles. *)
Ltac test_if_present t :=
  match goal with
  | |- context [t] => destruct t eqn:?; simpl in *
  | H : context [t] |- _ => destruct t eqn:?; simpl in *
  | _ => idtac
  end.

Ltac every_run env message :=
  unfold qualifies, isAllowedChannel, isAllowedThread, mentioned,
    first_image, issued, delivered, count, responder_invoked in *;
  unfold_listener;
  test_if_present (bot (author message));
  test_if_present (jsstring_eqb (channel_id (channel message))
                     (ALLOWED_CHANNEL_ID env));
  test_if_present (has (mentions_users message) (client_user_id env));
  rewrite ?andb_false_r, ?andb_true_r in *; simpl in *;
  test_if_present (isThread (channel message));
  try match goal with
      | |- context [parentId (channel message)] =>
          destruct (parentId (channel message)) as [parent|] eqn:?;
          simpl in *;
          try test_if_present (jsstring_eqb parent (ALLOWED_CHANNEL_ID env))
      | H : context [parentId (channel message)] |- _ =>
          destruct (parentId (channel message)) as [parent|] eqn:?;
          simpl in *;
          try test_if_present (jsstring_eqb parent (ALLOWED_CHANNEL_ID env))
      end;
  try match goal with
      | |- context [channel_sendTyping] =>
          destruct (attachments message) as [|first others] eqn:?;
          [|destruct (is_image first) eqn:?];
          simpl in *;
          destruct (is_empty (trim (replace_mention (content message))))
            eqn:?;
          simpl in *
      end;
  repeat settle_next; simpl in *.


Section MessageCreateRuns.

Variables (env : Env) (w : World).

(** X1.  The listener issues no call at all exactly for the messages of bot
    accounts and for the messages that are outside the allowed channel
    and are not a mention of the bot inside one of its threads. *)
Theorem silent_runs message :
  message_trace env w message = []
  <-> bot (author message) = true
      \/ (isAllowedChannel env message = false
          /\ (isAllowedThread env message && mentioned env message) = false).
Proof.
  every_run env message; split; intros H; try discriminate; auto;
    try (destruct H as [H|[H1 H2]]; discriminate).
Qed.

(** X2.  When the delete of an unmentioning message fails, the author is not
    notified: the failure is logged and the run ends there, its promise
    fulfilled. *)
Theorem failed_cleanup_sends_no_notice message e :
  mentioned env message = false ->
  In (Ev message_delete (rejected e)) (message_trace env w message) ->
  on_messageCreate env w message
  = (fulfils,
     [Ev message_delete (rejected e);
      Ev (console_error (Some (js "Could not delete message or DM user:")) e)
         (fulfilled undefined)]).
Proof.
  intros Hm H. revert H.
  every_run env message; intros H; split_in; try discriminate; reflexivity.
Qed.

(** X3.  A direct message goes out only as the removal notice: to the
    non-bot author of an unmentioning message in the allowed channel,
    and only once that message was deleted. *)
Theorem notice_only_after_cleanup message text :
  issued (author_send text) (message_trace env w message) ->
  bot (author message) = false
  /\ isAllowedChannel env message = true
  /\ mentioned env message = false
  /\ text = removal_notice (channel_id (channel message))
  /\ delivered message_delete (message_trace env w message).
Proof.
  intros H. revert H.
  every_run env message; intros H; split_in; try discriminate.
  all: match goal with H : author_send _ = author_send _ |- _ =>
         injection H as <- end.
  all: repeat split; eauto.
Qed.


(** X5.  Nothing is retried: one run invokes the model, downloads, creates a
    thread, sends into a thread and deletes the message at most once
    each. *)
Theorem no_call_repeated message :
  count is_generateContent (message_trace env w message) <= 1
  /\ count is_axios_get (message_trace env w message) <= 1
  /\ count is_startThread (message_trace env w message) <= 1
  /\ count is_thread_send (message_trace env w message) <= 1
  /\ count is_message_delete (message_trace env w message) <= 1.
Proof.
  every_run env message; repeat split; auto.
Qed.

Lemma settle_axios_get_inv url tr v :
  settle w tr (axios_get url) = fulfilled v -> v = arraybuffer (response_data v).
Proof.
  unfold settle. destruct (http w tr url); intros H; [discriminate|].
  injection H as <-. reflexivity.
Qed.

(** X6.  The only URL the listener ever requests is that of the first
    attachment of a qualifying message, and only when that attachment
    declares an image type. *)
Theorem download_only_first_image message u :
  issued (axios_get u) (message_trace env w message) ->
  qualifies env message = true
  /\ exists attachment,
       first_image message = Some attachment /\ u = url attachment.
Proof.
  intros H. revert H.
  every_run env message; intros H; split_in; try discriminate.
  all: match goal with H : axios_get _ = axios_get _ |- _ =>
         injection H as <- end.
  all: split; eauto.
Qed.

(** X7.  What the model is invoked with: always the persona and the fixed
    model name, after the typing indicator went through; the trimmed
    text alone, and then not empty, when the first attachment is no
    image; otherwise the text and the downloaded image, which is never
    missing. *)
Theorem model_call_inputs message s m parts r :
  In (Ev (generateContent s m parts) r) (message_trace env w message) ->
  s = persona /\ m = model_name
  /\ delivered channel_sendTyping (message_trace env w message)
  /\ (first_image message = None ->
      trim (replace_mention (content message)) <> []
      /\ parts = [Text (trim (replace_mention (content message)))])
  /\ (forall attachment,
        first_image message = Some attachment ->
        exists data mime,
          contentType attachment = Some mime
          /\ In (Ev (axios_get (url attachment)) (fulfilled (arraybuffer data)))
                (message_trace env w message)
          /\ parts = [Text (trim (replace_mention (content message)));
                      InlineData (toString_base64 data) mime]).
Proof.
  intros H. revert H.
  every_run env message; intros H; split_in; try discriminate.
  all: destruct s.
  all: split; [reflexivity|]; split; [reflexivity|]; split; [eauto|]; split.
  all: try (intros Hnone; discriminate Hnone).
  all: try (intros _; split; [|reflexivity];
            intros Habs; rewrite Habs in *; discriminate).
  all: intros attachment Hatt; try discriminate Hatt; injection Hatt as <-.
  all: match goal with H : is_image ?a = true |- _ =>
         destruct (is_image_inv _ H) as (mime & Hct & _) end.
  all: match goal with H : settle _ _ (axios_get _) = fulfilled ?v |- _ =>
         pose proof (settle_axios_get_inv _ _ _ H) as Hv;
         exists (response_data v), mime end.
  all: rewrite Hct; rewrite <- Hv; auto 10.
Qed.

(** X8.  When the download of the image fails, the model is not invoked; the
    error is logged, the failure notice is sent as a reply and the
    promise of the listener fulfils. *)
Theorem failed_download_reported message u e :
  In (Ev (axios_get u) (rejected e)) (message_trace env w message) ->
  responder_invoked (message_trace env w message) = false
  /\ issued (console_error relay_failure_label e) (message_trace env w message)
  /\ issued (message_reply failure_notice true) (message_trace env w message)
  /\ fst (on_messageCreate env w message) = fulfils.
Proof.
  intros H. revert H. unfold relay_failure_label.
  every_run env message; intros H; split_in; try discriminate.
  all: repeat split; auto 10.
Qed.

(** X9.  When the model call fails: the error is logged; the only reply is
    the failure notice; no thread is created and the message is not
    deleted; the promise of the listener fulfils. *)
Theorem failed_generation_reported message s m parts e :
  In (Ev (generateContent s m parts) (rejected e)) (message_trace env w message) ->
  issued (console_error relay_failure_label e) (message_trace env w message)
  /\ issued (message_reply failure_notice true) (message_trace env w message)
  /\ (forall text ephemeral,
        issued (message_reply text ephemeral) (message_trace env w message) ->
        text = failure_notice /\ ephemeral = true)
  /\ count is_startThread (message_trace env w message) = 0
  /\ count is_message_delete (message_trace env w message) = 0
  /\ fst (on_messageCreate env w message) = fulfils.
Proof.
  intros H. revert H. unfold relay_failure_label.
  every_run env message; intros H; split_in; try discriminate.
  all: repeat split; auto 10.
  all: split_in; try discriminate; congruence.
Qed.

(** X10.  Whatever call of the relay fails, the prompt request and the failure
    notice themselves apart, the error is logged, the failure notice
    is sent as a reply and the promise of the listener fulfils. *)
Theorem relay_failures_reported message c e :
  qualifies env message = true ->
  In (Ev c (rejected e)) (message_trace env w message) ->
  c <> message_reply prompt_request true ->
  c <> message_reply failure_notice true ->
  issued (console_error relay_failure_label e) (message_trace env w message)
  /\ issued (message_reply failure_notice true) (message_trace env w message)
  /\ fst (on_messageCreate env w message) = fulfils.
Proof.
  intros Q H. revert H. unfold relay_failure_label.
  every_run env message; try discriminate.
  all: intros H N1 N2; split_in; try discriminate; try congruence.
  all: repeat split; auto 10.
Qed.

(** X11.  The promise of the listener rejects exactly when the reply that asks
    for a prompt is refused, and then with that error. *)
Theorem rejects_iff_prompt_request_refused message e :
  fst (on_messageCreate env w message) = rejects e
  <-> In (Ev (message_reply prompt_request true) (rejected e))
         (message_trace env w message).
Proof.
  every_run env message; split; intros H; split_in; try discriminate; auto 10.
  all: try (injection H as <-; auto 10).
  all: try (assert (message_reply (response_text _) false
                    = message_reply prompt_request true) by eassumption;
            discriminate).
Qed.

(** X12.  The reply that asks for a prompt is sent only to a qualifying message
    whose prompt is empty and whose first attachment is no image, and
    such a run never invokes the model. *)
Theorem prompt_request_only_for_bare_mention message :
  issued (message_reply prompt_request true) (message_trace env w message) ->
  qualifies env message = true
  /\ trim (replace_mention (content message)) = []
  /\ first_image message = None
  /\ responder_invoked (message_trace env w message) = false.
Proof.
  intros H. revert H.
  every_run env message; intros H; split_in; try discriminate.
  all: try (match goal with H : message_reply failure_notice true = _ |- _ =>
              injection H as H; now apply prompt_request_is_no_failure_notice in H
            end).
  all: repeat split; auto.
  all: destruct (trim (replace_mention (content message))); [reflexivity|discriminate].
Qed.

(** X13.  The text part given to the model neither starts nor ends with white
    space. *)
Theorem prompt_has_no_surrounding_space message s m parts r :
  In (Ev (generateContent s m parts) r) (message_trace env w message) ->
  exists text image,
    parts = Text text :: image
    /\ no_leading_space text /\ no_leading_space (rev text).
Proof.
  intros H.
  assert (exists image,
            parts = Text (trim (replace_mention (content message))) :: image)
    as [image ->].
  { revert H. every_run env message; intros H; split_in; try discriminate; eauto. }
  exists (trim (replace_mention (content message))), image.
  split; [reflexivity|]. apply trim_no_surrounding_space.
Qed.

End MessageCreateRuns.

(* ================================================================== *)
(** * Every run of [interactionCreate] *)

Section InteractionRuns.

Variable w : World.

Ltac every_click interaction :=
  unfold issued, delivered, count in *;
  unfold_listener;
  destruct (isButton interaction) eqn:Hbutton; simpl in *;
  [destruct (startsWith (customId interaction) (js "close_thread_"))
     eqn:Hprefix; simpl in *;
   [let owner := fresh "owner" in
    let Ho := fresh "Ho" in
    destruct (threadOwnerId_defined _ Hprefix) as [owner Ho];
    rewrite Ho in *; simpl in *;
    destruct (jsstring_eqb (user_id (user interaction)) owner) eqn:Howner;
    simpl in *;
    repeat settle_next; simpl in *
   |]
  |].

(** X16.  The listener issues no call exactly for the interactions that are no
    button activation or whose identifier does not start with
    [close_thread_]. *)
Theorem foreign_interactions_ignored interaction :
  interaction_trace w interaction = []
  <-> isButton interaction = false
      \/ startsWith (customId interaction) (js "close_thread_") = false.
Proof.
  every_click interaction; split; intros H; try discriminate; auto;
    destruct H; discriminate.
Qed.

(** X17.  Every activation of a Close Session control is answered by exactly
    one interaction reply, which is ephemeral and is the denial or the
    closing confirmation. *)
Theorem activation_answered_once interaction :
  isButton interaction = true ->
  startsWith (customId interaction) (js "close_thread_") = true ->
  count is_interaction_reply (interaction_trace w interaction) = 1
  /\ forall text ephemeral,
       issued (interaction_reply text ephemeral) (interaction_trace w interaction) ->
       ephemeral = true /\ (text = denial \/ text = closing).
Proof.
  intros Hb Hp. revert Hb Hp.
  every_click interaction; intros Hb Hp; try discriminate.
  all: split; [reflexivity|].
  all: intros text ephemeral H; split_in; try discriminate.
  all: match goal with H : interaction_reply _ _ = interaction_reply _ _ |- _ =>
         injection H as <- <- end; auto.
Qed.

(** X18.  A failure on the owner's path (the confirmation reply or the thread
    deletion) ends the run: it is logged as last event and the promise
    of the listener fulfils. *)
Theorem owner_failures_swallowed interaction c e :
  In (Ev c (rejected e)) (interaction_trace w interaction) ->
  c <> interaction_reply denial true ->
  fst (on_interactionCreate w interaction) = fulfils
  /\ exists before,
       interaction_trace w interaction
       = before ++ [Ev c (rejected e);
                    Ev (console_error (Some (js "Failed to delete thread:")) e)
                       (fulfilled undefined)].
Proof.
  intros H. revert H.
  every_click interaction; intros H N; split_in; try discriminate;
    try congruence.
  all: split; [reflexivity|].
  - now exists [Ev (interaction_reply closing true) (fulfilled r)].
  - now exists [].
Qed.

(** X19.  The promise of the listener rejects exactly when the denial reply is
    refused, and then with that error. *)
Theorem click_rejects_iff_denial_refused interaction e :
  fst (on_interactionCreate w interaction) = rejects e
  <-> In (Ev (interaction_reply denial true) (rejected e))
         (interaction_trace w interaction).
Proof.
  every_click interaction; split; intros H; split_in; try discriminate; auto.
  all: try (injection H as <-; auto).
  all: try (match goal with H : interaction_reply closing true = _ |- _ =>
              injection H as H; revert H; vm_compute; discriminate end).
Qed.

End InteractionRuns.

(* ================================================================== *)
(** * From the button to the click *)

Section Sessions.

Variables (env : Env) (w w' : World).

Lemma split_at_separator sep a x :
  ~ In sep a -> split sep (a ++ sep :: x) = a :: split sep x.
Proof.
  induction a as [|c a IH]; simpl; intros H.
  - now rewrite N.eqb_refl.
  - destruct (N.eqb_spec c sep) as [->|_]; [tauto|].
    rewrite IH by tauto. reflexivity.
Qed.

(** X20.  The owner read off the identifier of a Close Session button is the
    author it was built for (an id without underscore), also when
    further underscore-separated pieces follow the id. *)
Theorem owner_is_third_piece author_id tail :
  ~ In 95%N author_id ->
  tail = [] \/ (exists x, tail = 95%N :: x) ->
  threadOwnerId_of (custom_id (closeButton author_id) ++ tail)
  = Some author_id.
Proof.
  intros H Htail. unfold threadOwnerId_of.
  change (custom_id (closeButton author_id))
    with ([99; 108; 111; 115; 101; 95; 116; 104; 114; 101; 97; 100; 95]%N
            ++ author_id).
  rewrite <- app_assoc.
  cbn [app split N.eqb Pos.eqb].
  destruct Htail as [-> | [x ->]].
  - rewrite app_nil_r, (split_without_separator 95 author_id H). reflexivity.
  - rewrite (split_at_separator 95 author_id x H). reflexivity.
Qed.

(** Whatever is sent into a thread is the analysis for the author, with
    the author's own button as its single control. *)
Lemma thread_send_inv message thread text components r :
  In (Ev (thread_send thread text components) r) (message_trace env w message) ->
  components = [[closeButton (user_id (author message))]].
Proof.
  intros H. revert H.
  every_run env message; intros H; split_in; try discriminate; reflexivity.
Qed.

(** X21.  From the relay to the click: whatever button the relay sent into a
    thread, its activation leads to the deletion of the thread exactly
    when the activating user is the author of the triggering message
    and the confirmation reply went through; any other user gets the
    denial alone. *)
Theorem opened_session_closed_by_author
    message thread text button r clicker :
  ~ In 95%N (user_id (author message)) ->
  In (Ev (thread_send thread text [[button]]) r) (message_trace env w message) ->
  (issued interaction_channel_delete
     (interaction_trace w' (activation button clicker))
   <-> user_id clicker = user_id (author message)
       /\ delivered (interaction_reply closing true)
            (interaction_trace w' (activation button clicker)))
  /\ (user_id clicker <> user_id (author message) ->
      exists r',
        interaction_trace w' (activation button clicker)
        = [Ev (interaction_reply denial true) r']).
Proof.
  intros Hid H. apply thread_send_inv in H. injection H as ->.
  unfold issued, delivered, activation. unfold_listener.
  cbn [isButton customId user].
  rewrite closeButton_recognised, (closeButton_embeds_author _ Hid). simpl.
  destruct (jsstring_eqb (user_id clicker) (user_id (author message))) eqn:Heq;
    simpl.
  - apply jsstring_eqb_eq in Heq.
    repeat settle_next; simpl; repeat split; eauto; try tauto.
    all: try (intros; split_in; try discriminate; eauto; tauto).
    all: try (intros [_ [v H]]; split_in; discriminate).
  - apply jsstring_eqb_neq in Heq.
    repeat settle_next; simpl; repeat split; eauto; try tauto.
    all: try (intros; split_in; try discriminate; eauto; tauto).
Qed.

End Sessions.

(* ================================================================== *)
(** * The shape of a base64 text *)

Section Base64Shape.

(** X22.  The base64 text of [n] octets has [4 * ceil (n / 3)] units. *)
Theorem toString_base64_length (buffer : bytes) :
  List.length (toString_base64 buffer)
  = 4 * ((List.length buffer + 2) / 3).
Proof.
  induction buffer as [|a|a b|a b c rest IH] using triple_ind;
    try reflexivity.
  change (List.length (toString_base64 (a :: b :: c :: rest)))
    with (4 + List.length (toString_base64 rest)).
  rewrite IH.
  change (List.length (a :: b :: c :: rest)) with (3 + List.length rest).
  replace (3 + List.length rest + 2) with (List.length rest + 2 + 1 * 3) by lia.
  rewrite Nat.div_add by lia. lia.
Qed.

Lemma encode_sextet_unit v :
  In (encode_sextet v) alphabet \/ encode_sextet v = pad.
Proof.
  unfold encode_sextet.
  destruct (nth_in_or_default (N.to_nat v) alphabet pad); auto.
Qed.

(** X23.  The base64 text holds units of the alphabet and the padding sign
    only. *)
Theorem toString_base64_units (buffer : bytes) :
  Forall (fun c => In c alphabet \/ c = pad) (toString_base64 buffer).
Proof.
  induction buffer as [|a|a b|a b c rest IH] using triple_ind.
  - constructor.
  - cbn [toString_base64].
    repeat (constructor; [apply encode_sextet_unit || (right; reflexivity)|]).
    constructor.
  - cbn [toString_base64].
    repeat (constructor; [apply encode_sextet_unit || (right; reflexivity)|]).
    constructor.
  - cbn [toString_base64].
    repeat (constructor; [apply encode_sextet_unit|]). exact IH.
Qed.

End Base64Shape.

(* ================================================================== *)
(** * Start-up *)

Section StartupFacts.

(** X24.  The script logs in, with the configured token, exactly when the
    allowed channel id is set and not empty; otherwise it exits with
    code 1, and never both. *)
Theorem login_iff_channel_configured (e : ProcessEnv) :
  (forall token,
     In (client_login token) (main e)
     <-> truthy (env_ALLOWED_CHANNEL_ID e) = true /\ token = env_BOT_TOKEN e)
  /\ (forall code,
        In (process_exit code) (main e)
        <-> truthy (env_ALLOWED_CHANNEL_ID e) = false /\ code = 1%N).
Proof.
  unfold main.
  destruct (truthy (env_ALLOWED_CHANNEL_ID e)); simpl; split; intros x; split;
    intros H.
  all: try (destruct H as [H1 H2]; try discriminate H1; subst; simpl; auto 10;
            fail).
  all: split_in; try discriminate.
  all: match goal with
       | H : client_login _ = client_login _ |- _ => injection H as <-
       | H : process_exit _ = process_exit _ |- _ => injection H as <-
       end; auto.
Qed.

(** X25.  What the script prints at start-up, the line of the [ready]
    listener included, depends on the three variables only through
    which of them are set: for the same answer of the platform (the tag
    of the logged-in user, which is what the [ready] line shows), two
    environments that agree on which variables are set print the same
    lines. *)
Theorem console_hides_secret_values (e1 e2 : ProcessEnv) readiness :
  truthy (env_ALLOWED_CHANNEL_ID e1) = truthy (env_ALLOWED_CHANNEL_ID e2) ->
  truthy (env_BOT_TOKEN e1) = truthy (env_BOT_TOKEN e2) ->
  truthy (env_GEMINI_API_KEY e1) = truthy (env_GEMINI_API_KEY e2) ->
  printed (startup e1 readiness) = printed (startup e2 readiness).
Proof.
  intros Hc Ht Hk. unfold startup, main. rewrite Hc, Ht, Hk.
  destruct (truthy (env_ALLOWED_CHANNEL_ID e2)); destruct readiness;
    reflexivity.
Qed.

End StartupFacts.

(* ================================================================== *)
(** * The listeners on sample events *)

(** Alice asks about AAPL in the allowed channel: typing indicator,
    model call, private thread, the answer with her Close Session
    button, then the deletion of her message. *)
Example ask_aapl_opens_session :
  on_messageCreate env0 calm ask_aapl
  = (fulfils,
     [Ev channel_sendTyping (fulfilled undefined);
      Ev (generateContent persona model_name [Text (js "Analyze AAPL")])
         (fulfilled (generated (js "ok")));
      Ev (message_startThread (js "Private Chat with alice") PrivateThread)
         (fulfilled (thread_created (js "T1")));
      Ev (thread_send (js "T1") (analysis (js "222") (js "ok"))
            [[closeButton (js "222")]])
         (fulfilled undefined);
      Ev message_delete (fulfilled undefined)]).
Proof. reflexivity. Qed.

(** "hello" without a mention is removed and its author notified. *)
Example hello_is_removed :
  on_messageCreate env0 calm hello
  = (fulfils,
     [Ev message_delete (fulfilled undefined);
      Ev (author_send (removal_notice (js "100"))) (fulfilled undefined)]).
Proof. reflexivity. Qed.

(** Alice closes her own session; Carol may not. *)
Example owner_closes_session :
  on_interactionCreate calm (click alice (js "close_thread_222"))
  = (fulfils,
     [Ev (interaction_reply closing true) (fulfilled undefined);
      Ev interaction_channel_delete (fulfilled undefined)]).
Proof. reflexivity. Qed.

Example stranger_is_denied :
  on_interactionCreate calm (click carol (js "close_thread_222"))
  = (fulfils, [Ev (interaction_reply denial true) (fulfilled undefined)]).
Proof. reflexivity. Qed.

(** When the platform refuses every call, the failed delete of the
    cleanup is logged and swallowed. *)
Example refused_cleanup_is_logged :
  on_messageCreate env0 refusing hello
  = (fulfils,
     [Ev message_delete (rejected outage);
      Ev (console_error (Some (js "Could not delete message or DM user:"))
            outage)
         (fulfilled undefined)]).
Proof. reflexivity. Qed.

(** ** C10 *)

Lemma bot_author_ignored_on_feed_post :
  bot (author feed_post) = true
  /\ on_messageCreate env0 calm feed_post = (fulfils, []).
Proof.
  split; [reflexivity|].
  apply (bot_author_ignored env0 calm feed_post). reflexivity.
Defined.

(** ** C1 *)

(** The post of a bot account in the allowed channel mentions nobody,
    and yet it is neither deleted nor answered with a notice. *)
Lemma bot_post_in_allowed_channel_stays :
  isAllowedChannel env0 feed_post = true
  /\ mentioned env0 feed_post = false
  /\ message_trace env0 calm feed_post = []
  /\ ~ issued message_delete (message_trace env0 calm feed_post)
  /\ ~ issued (author_send (removal_notice (channel_id (channel feed_post))))
         (message_trace env0 calm feed_post).
Proof.
  repeat split; try reflexivity; intros H; exact H.
Qed.

Lemma unmentioned_message_removed_on_hello :
  bot (author hello) = false
  /\ isAllowedChannel env0 hello = true
  /\ mentioned env0 hello = false
  /\ exists d rest,
       on_messageCreate env0 calm hello = (fulfils, Ev message_delete d :: rest)
       /\ (succeeded d = true ->
           exists r rest',
             rest = Ev (author_send (removal_notice (channel_id (channel hello)))) r
                      :: rest')
       /\ responder_invoked (Ev message_delete d :: rest) = false.
Proof.
  split; [reflexivity|]. split; [reflexivity|]. split; [reflexivity|].
  apply (unmentioned_message_removed env0 calm hello); reflexivity.
Defined.

(** ** C2 *)

Lemma close_session_owner_only_on_click :
  isButton (click carol (js "close_thread_222")) = true
  /\ startsWith (customId (click carol (js "close_thread_222")))
       (js "close_thread_") = true
  /\ exists owner,
       threadOwnerId_of (customId (click carol (js "close_thread_222")))
       = Some owner
       /\ (issued interaction_channel_delete
             (interaction_trace calm (click carol (js "close_thread_222")))
           <-> user_id (user (click carol (js "close_thread_222"))) = owner
               /\ delivered (interaction_reply closing true)
                    (interaction_trace calm (click carol (js "close_thread_222"))))
       /\ (user_id (user (click carol (js "close_thread_222"))) = owner ->
           exists r rest,
             interaction_trace calm (click carol (js "close_thread_222"))
             = Ev (interaction_reply closing true) r :: rest)
       /\ (user_id (user (click carol (js "close_thread_222"))) <> owner ->
           exists r,
             interaction_trace calm (click carol (js "close_thread_222"))
             = [Ev (interaction_reply denial true) r]).
Proof.
  split; [reflexivity|]. split; [reflexivity|].
  apply (close_session_owner_only calm (click carol (js "close_thread_222")));
    reflexivity.
Defined.

(** ** C3 *)

Lemma session_thread_opened_on_ask_aapl :
  isAllowedChannel env0 ask_aapl = true
  /\ isThread (channel ask_aapl) = false
  /\ In (Ev (generateContent persona model_name [Text (js "Analyze AAPL")])
            (fulfilled (generated (js "ok"))))
        (message_trace env0 calm ask_aapl)
  /\ count is_startThread (message_trace env0 calm ask_aapl) = 1
  /\ issued (message_startThread (thread_name (username (author ask_aapl)))
               PrivateThread)
       (message_trace env0 calm ask_aapl)
  /\ (forall t,
        In (Ev (message_startThread (thread_name (username (author ask_aapl)))
                  PrivateThread)
               (fulfilled (thread_created t)))
           (message_trace env0 calm ask_aapl) ->
        count is_thread_send (message_trace env0 calm ask_aapl) = 1
        /\ count bears_close_control (message_trace env0 calm ask_aapl) = 1
        /\ issued (thread_send t (analysis (user_id (author ask_aapl)) (js "ok"))
                     [[closeButton (user_id (author ask_aapl))]])
             (message_trace env0 calm ask_aapl))
  /\ (forall pre r post,
        message_trace env0 calm ask_aapl = pre ++ Ev message_delete r :: post ->
        exists sent, In sent pre /\ sent_control sent = true).
Proof.
  assert (G : In (Ev (generateContent persona model_name [Text (js "Analyze AAPL")])
                     (fulfilled (generated (js "ok"))))
                 (message_trace env0 calm ask_aapl))
    by (vm_compute; auto).
  split; [reflexivity|]. split; [reflexivity|]. split; [exact G|].
  apply (session_thread_opened env0 calm ask_aapl persona model_name
           [Text (js "Analyze AAPL")] (js "ok")); [reflexivity | reflexivity | exact G].
Defined.

(** ** C4 *)

(** Where another user is mentioned first, it is that mention which is
    removed while the bot's own stays in the prompt; and a mention of
    the bot in the middle of the text is removed although it does not
    lead the text.  Stripping only a leading mention of the bot would
    leave both texts as they are. *)
Lemma other_mention_stripped_bot_mention_kept :
  issued (generateContent persona model_name [Text (js "ask <@111>")])
    (message_trace env0 calm mention_of_carol_first)
  /\ trim (strip_leading_bot_mention (client_user_id env0)
             (content mention_of_carol_first))
     = js "<@333> ask <@111>"
  /\ issued (generateContent persona model_name [Text (js "price of AAPL")])
       (message_trace env0 calm mention_mid_text)
  /\ trim (strip_leading_bot_mention (client_user_id env0)
             (content mention_mid_text))
     = js "price of <@111> AAPL"
  /\ js "ask <@111>" <> js "<@333> ask <@111>"
  /\ js "price of AAPL" <> js "price of <@111> AAPL".
Proof.
  repeat split; try reflexivity; try discriminate; vm_compute; auto.
Qed.

Lemma prompt_drops_first_mention_on_carol_first :
  In (Ev (generateContent persona model_name [Text (js "ask <@111>")])
         (fulfilled (generated (js "ok"))))
     (message_trace env0 calm mention_of_carol_first)
  /\ exists stripped image,
       first_mention_removed (content mention_of_carol_first) stripped
       /\ [Text (js "ask <@111>")] = Text (trim stripped) :: image.
Proof.
  assert (G : In (Ev (generateContent persona model_name [Text (js "ask <@111>")])
                     (fulfilled (generated (js "ok"))))
                 (message_trace env0 calm mention_of_carol_first))
    by (vm_compute; auto).
  split; [exact G|].
  exact (prompt_drops_first_mention env0 calm mention_of_carol_first
           persona model_name [Text (js "ask <@111>")]
           (fulfilled (generated (js "ok"))) G).
Defined.

(** ** C5 *)

(** An image that is not the first attachment is never downloaded, and
    the model receives the text part alone. *)
Lemma image_after_document_ignored :
  existsb is_image (attachments chart_second) = true
  /\ count is_axios_get (message_trace env0 calm chart_second) = 0
  /\ issued (generateContent persona model_name [Text (js "read this")])
       (message_trace env0 calm chart_second).
Proof.
  repeat split; try reflexivity; vm_compute; auto.
Qed.

Lemma first_image_attachment_inlined_on_chart_first :
  qualifies env0 chart_first = true
  /\ first_image chart_first = Some chart_png
  /\ delivered channel_sendTyping (message_trace env0 calm chart_first)
  /\ exists mime,
       contentType chart_png = Some mime
       /\ startsWith mime (js "image/") = true
       /\ issued (axios_get (url chart_png)) (message_trace env0 calm chart_first)
       /\ forall data,
            In (Ev (axios_get (url chart_png)) (fulfilled (arraybuffer data)))
               (message_trace env0 calm chart_first) ->
            issued (generateContent persona model_name
                      [Text (trim (replace_mention (content chart_first)));
                       InlineData (toString_base64 data) mime])
              (message_trace env0 calm chart_first).
Proof.
  assert (D : delivered channel_sendTyping (message_trace env0 calm chart_first))
    by (exists undefined; vm_compute; auto).
  split; [reflexivity|]. split; [reflexivity|]. split; [exact D|].
  apply (first_image_attachment_inlined env0 calm chart_first chart_png);
    [reflexivity | reflexivity | exact D].
Defined.

(** ** C6 *)

Lemma empty_prompt_asks_for_prompt_on_bare_mention :
  qualifies env0 bare_mention = true
  /\ trim (replace_mention (content bare_mention)) = []
  /\ first_image bare_mention = None
  /\ discord calm [] channel_sendTyping = None
  /\ responder_invoked (message_trace env0 calm bare_mention) = false
  /\ (exists r rest,
        message_trace env0 calm bare_mention = Ev channel_sendTyping r :: rest)
  /\ exists r,
       message_trace env0 calm bare_mention
       = [Ev channel_sendTyping (fulfilled undefined);
          Ev (message_reply prompt_request true) r].
Proof.
  destruct (empty_prompt_asks_for_prompt env0 calm bare_mention
              eq_refl eq_refl eq_refl) as (Hnone & Hopens & Hasks).
  split; [reflexivity|]. split; [reflexivity|]. split; [reflexivity|].
  split; [reflexivity|]. split; [exact Hnone|]. split; [exact Hopens|].
  apply Hasks. reflexivity.
Defined.

(** ** C7 *)

(** C7.  Two failures leave their listener, whose promise rejects with
    nothing to catch it: the denial reply of [interactionCreate], which
    stands before the [try] block, and the prompt request of
    [messageCreate], which the [try] block returns without awaiting
    it. *)
Theorem failures_escape_the_listeners :
  on_interactionCreate refusing (click carol (js "close_thread_222"))
  = (rejects outage, [Ev (interaction_reply denial true) (rejected outage)])
  /\ on_messageCreate env0 reply_refusing bare_mention
     = (rejects outage,
        [Ev channel_sendTyping (fulfilled undefined);
         Ev (message_reply prompt_request true) (rejected outage)]).
Proof. split; reflexivity. Qed.

(** ** C8 *)

Lemma reply_inside_thread_on_ask_in_thread :
  isAllowedThread env0 ask_in_thread = true
  /\ In (Ev (generateContent persona model_name [Text (js "Analyze AAPL")])
            (fulfilled (generated (js "ok"))))
        (message_trace env0 calm ask_in_thread)
  /\ issued (message_reply (js "ok") false) (message_trace env0 calm ask_in_thread)
  /\ count is_startThread (message_trace env0 calm ask_in_thread) = 0
  /\ count is_thread_send (message_trace env0 calm ask_in_thread) = 0
  /\ count bears_close_control (message_trace env0 calm ask_in_thread) = 0.
Proof.
  assert (G : In (Ev (generateContent persona model_name [Text (js "Analyze AAPL")])
                     (fulfilled (generated (js "ok"))))
                 (message_trace env0 calm ask_in_thread))
    by (vm_compute; auto).
  split; [reflexivity|]. split; [exact G|].
  apply (reply_inside_thread env0 calm ask_in_thread persona model_name
           [Text (js "Analyze AAPL")] (js "ok")); [reflexivity | exact G].
Defined.

(** ** C9 *)

Lemma image_part_decodes_to_download_on_chart :
  http calm [] (url chart_png) = inr [Byte.x4d; Byte.x61; Byte.x6e]
  /\ exists encoded,
       fst (urlToGenerativePart (url chart_png) (js "image/png") calm [])
       = normal (InlineData encoded (js "image/png"))
       /\ decode_base64 encoded = Some [Byte.x4d; Byte.x61; Byte.x6e].
Proof.
  split; [reflexivity|].
  apply (image_part_decodes_to_download calm [] (url chart_png) (js "image/png")
           [Byte.x4d; Byte.x61; Byte.x6e]).
  reflexivity.
Defined.

(* ================================================================== *)
(** * The further properties on sample events *)

Lemma failed_cleanup_sends_no_notice_on_hello :
  mentioned env0 hello = false
  /\ In (Ev message_delete (rejected outage)) (message_trace env0 refusing hello)
  /\ on_messageCreate env0 refusing hello
     = (fulfils,
        [Ev message_delete (rejected outage);
         Ev (console_error (Some (js "Could not delete message or DM user:"))
               outage)
            (fulfilled undefined)]).
Proof.
  assert (H : In (Ev message_delete (rejected outage))
                 (message_trace env0 refusing hello)) by (vm_compute; auto).
  split; [reflexivity|]. split; [exact H|].
  apply (failed_cleanup_sends_no_notice env0 refusing hello outage);
    [reflexivity | exact H].
Defined.

Lemma notice_only_after_cleanup_on_hello :
  issued (author_send (removal_notice (js "100"))) (message_trace env0 calm hello)
  /\ bot (author hello) = false
  /\ isAllowedChannel env0 hello = true
  /\ mentioned env0 hello = false
  /\ removal_notice (js "100") = removal_notice (channel_id (channel hello))
  /\ delivered message_delete (message_trace env0 calm hello).
Proof.
  assert (H : issued (author_send (removal_notice (js "100")))
                (message_trace env0 calm hello)) by (vm_compute; auto).
  split; [exact H|].
  exact (notice_only_after_cleanup env0 calm hello (removal_notice (js "100")) H).
Defined.


Lemma download_only_first_image_on_chart_first :
  issued (axios_get (url chart_png)) (message_trace env0 calm chart_first)
  /\ qualifies env0 chart_first = true
  /\ exists attachment,
       first_image chart_first = Some attachment
       /\ url chart_png = url attachment.
Proof.
  assert (H : issued (axios_get (url chart_png))
                (message_trace env0 calm chart_first)) by (vm_compute; auto).
  split; [exact H|].
  exact (download_only_first_image env0 calm chart_first (url chart_png) H).
Defined.

Lemma model_call_inputs_on_ask_aapl :
  In (Ev (generateContent persona model_name [Text (js "Analyze AAPL")])
         (fulfilled (generated (js "ok"))))
     (message_trace env0 calm ask_aapl)
  /\ persona = persona /\ model_name = model_name
  /\ delivered channel_sendTyping (message_trace env0 calm ask_aapl)
  /\ (first_image ask_aapl = None ->
      trim (replace_mention (content ask_aapl)) <> []
      /\ [Text (js "Analyze AAPL")]
         = [Text (trim (replace_mention (content ask_aapl)))])
  /\ (forall attachment,
        first_image ask_aapl = Some attachment ->
        exists data mime,
          contentType attachment = Some mime
          /\ In (Ev (axios_get (url attachment)) (fulfilled (arraybuffer data)))
                (message_trace env0 calm ask_aapl)
          /\ [Text (js "Analyze AAPL")]
             = [Text (trim (replace_mention (content ask_aapl)));
                InlineData (toString_base64 data) mime]).
Proof.
  assert (H : In (Ev (generateContent persona model_name [Text (js "Analyze AAPL")])
                     (fulfilled (generated (js "ok"))))
                 (message_trace env0 calm ask_aapl)) by (vm_compute; auto).
  split; [exact H|].
  exact (model_call_inputs env0 calm ask_aapl persona model_name
           [Text (js "Analyze AAPL")] (fulfilled (generated (js "ok"))) H).
Defined.

Lemma failed_download_reported_on_chart_first :
  In (Ev (axios_get (url chart_png)) (rejected timeout))
     (message_trace env0 offline chart_first)
  /\ responder_invoked (message_trace env0 offline chart_first) = false
  /\ issued (console_error relay_failure_label timeout)
       (message_trace env0 offline chart_first)
  /\ issued (message_reply failure_notice true)
       (message_trace env0 offline chart_first)
  /\ fst (on_messageCreate env0 offline chart_first) = fulfils.
Proof.
  assert (H : In (Ev (axios_get (url chart_png)) (rejected timeout))
                 (message_trace env0 offline chart_first))
    by (vm_compute; auto).
  split; [exact H|].
  exact (failed_download_reported env0 offline chart_first (url chart_png)
           timeout H).
Defined.

Lemma failed_generation_reported_on_ask_aapl :
  In (Ev (generateContent persona model_name [Text (js "Analyze AAPL")])
         (rejected quota))
     (message_trace env0 model_down ask_aapl)
  /\ issued (console_error relay_failure_label quota)
       (message_trace env0 model_down ask_aapl)
  /\ issued (message_reply failure_notice true)
       (message_trace env0 model_down ask_aapl)
  /\ (forall text ephemeral,
        issued (message_reply text ephemeral)
          (message_trace env0 model_down ask_aapl) ->
        text = failure_notice /\ ephemeral = true)
  /\ count is_startThread (message_trace env0 model_down ask_aapl) = 0
  /\ count is_message_delete (message_trace env0 model_down ask_aapl) = 0
  /\ fst (on_messageCreate env0 model_down ask_aapl) = fulfils.
Proof.
  assert (H : In (Ev (generateContent persona model_name [Text (js "Analyze AAPL")])
                     (rejected quota))
                 (message_trace env0 model_down ask_aapl))
    by (vm_compute; auto).
  split; [exact H|].
  exact (failed_generation_reported env0 model_down ask_aapl persona model_name
           [Text (js "Analyze AAPL")] quota H).
Defined.

Lemma relay_failures_reported_on_ask_in_thread :
  qualifies env0 ask_in_thread = true
  /\ In (Ev (message_reply (js "ok") false) (rejected outage))
        (message_trace env0 reply_refusing ask_in_thread)
  /\ message_reply (js "ok") false <> message_reply prompt_request true
  /\ message_reply (js "ok") false <> message_reply failure_notice true
  /\ issued (console_error relay_failure_label outage)
       (message_trace env0 reply_refusing ask_in_thread)
  /\ issued (message_reply failure_notice true)
       (message_trace env0 reply_refusing ask_in_thread)
  /\ fst (on_messageCreate env0 reply_refusing ask_in_thread) = fulfils.
Proof.
  assert (H : In (Ev (message_reply (js "ok") false) (rejected outage))
                 (message_trace env0 reply_refusing ask_in_thread))
    by (vm_compute; auto 10).
  assert (N1 : message_reply (js "ok") false <> message_reply prompt_request true)
    by discriminate.
  assert (N2 : message_reply (js "ok") false <> message_reply failure_notice true)
    by discriminate.
  split; [reflexivity|]. split; [exact H|]. split; [exact N1|].
  split; [exact N2|].
  exact (relay_failures_reported env0 reply_refusing ask_in_thread
           (message_reply (js "ok") false) outage eq_refl H N1 N2).
Defined.

Lemma prompt_request_only_for_bare_mention_on_bare_mention :
  issued (message_reply prompt_request true) (message_trace env0 calm bare_mention)
  /\ qualifies env0 bare_mention = true
  /\ trim (replace_mention (content bare_mention)) = []
  /\ first_image bare_mention = None
  /\ responder_invoked (message_trace env0 calm bare_mention) = false.
Proof.
  assert (H : issued (message_reply prompt_request true)
                (message_trace env0 calm bare_mention)) by (vm_compute; auto).
  split; [exact H|].
  exact (prompt_request_only_for_bare_mention env0 calm bare_mention H).
Defined.

Lemma prompt_has_no_surrounding_space_on_ask_aapl :
  In (Ev (generateContent persona model_name [Text (js "Analyze AAPL")])
         (fulfilled (generated (js "ok"))))
     (message_trace env0 calm ask_aapl)
  /\ exists text image,
       [Text (js "Analyze AAPL")] = Text text :: image
       /\ no_leading_space text /\ no_leading_space (rev text).
Proof.
  assert (H : In (Ev (generateContent persona model_name [Text (js "Analyze AAPL")])
                     (fulfilled (generated (js "ok"))))
                 (message_trace env0 calm ask_aapl)) by (vm_compute; auto).
  split; [exact H|].
  exact (prompt_has_no_surrounding_space env0 calm ask_aapl persona model_name
           [Text (js "Analyze AAPL")] (fulfilled (generated (js "ok"))) H).
Defined.

Lemma leading_mention_stripped_on_ask_aapl :
  js "111" <> []
  /\ forallb is_digit (js "111") = true
  /\ trim (replace_mention (js "<@" ++ [] ++ js "111" ++ js ">" ++ js " Analyze AAPL"))
     = trim (js " Analyze AAPL").
Proof.
  split; [discriminate|]. split; [reflexivity|].
  apply (leading_mention_stripped [] (js "111") (js " Analyze AAPL"));
    [left; reflexivity | discriminate | reflexivity].
Defined.

Lemma text_without_mention_kept_on_hello :
  ~ In 60%N (js "hello") /\ replace_mention (js "hello") = js "hello".
Proof.
  assert (H : ~ In 60%N (js "hello")).
  { vm_compute. intros H.
    repeat (destruct H as [H|H]; [discriminate H|]). exact H. }
  split; [exact H|].
  exact (text_without_mention_kept (js "hello") H).
Defined.

Lemma activation_answered_once_on_click :
  isButton (click carol (js "close_thread_222")) = true
  /\ startsWith (customId (click carol (js "close_thread_222")))
       (js "close_thread_") = true
  /\ count is_interaction_reply
       (interaction_trace calm (click carol (js "close_thread_222"))) = 1
  /\ forall text ephemeral,
       issued (interaction_reply text ephemeral)
         (interaction_trace calm (click carol (js "close_thread_222"))) ->
       ephemeral = true /\ (text = denial \/ text = closing).
Proof.
  split; [reflexivity|]. split; [reflexivity|].
  apply (activation_answered_once calm (click carol (js "close_thread_222")));
    reflexivity.
Defined.

Lemma owner_failures_swallowed_on_click :
  In (Ev (interaction_reply closing true) (rejected outage))
     (interaction_trace refusing (click alice (js "close_thread_222")))
  /\ interaction_reply closing true <> interaction_reply denial true
  /\ fst (on_interactionCreate refusing (click alice (js "close_thread_222")))
     = fulfils
  /\ exists before,
       interaction_trace refusing (click alice (js "close_thread_222"))
       = before ++ [Ev (interaction_reply closing true) (rejected outage);
                    Ev (console_error (Some (js "Failed to delete thread:")) outage)
                       (fulfilled undefined)].
Proof.
  assert (H : In (Ev (interaction_reply closing true) (rejected outage))
                 (interaction_trace refusing (click alice (js "close_thread_222"))))
    by (vm_compute; auto).
  assert (N : interaction_reply closing true <> interaction_reply denial true)
    by (vm_compute; discriminate).
  split; [exact H|]. split; [exact N|].
  exact (owner_failures_swallowed refusing (click alice (js "close_thread_222"))
           (interaction_reply closing true) outage H N).
Defined.

Lemma owner_is_third_piece_on_suffixed_id :
  ~ In 95%N (js "222")
  /\ threadOwnerId_of (custom_id (closeButton (js "222")) ++ js "_again")
     = Some (js "222").
Proof.
  assert (H : ~ In 95%N (js "222")).
  { vm_compute. intros H.
    repeat (destruct H as [H|H]; [discriminate H|]). exact H. }
  split; [exact H|].
  apply (owner_is_third_piece (js "222") (js "_again") H).
  right. exists (js "again"). reflexivity.
Defined.

Lemma opened_session_closed_by_author_on_ask_aapl :
  ~ In 95%N (user_id (author ask_aapl))
  /\ In (Ev (thread_send (js "T1") (analysis (js "222") (js "ok"))
               [[closeButton (js "222")]])
            (fulfilled undefined))
        (message_trace env0 calm ask_aapl)
  /\ (issued interaction_channel_delete
        (interaction_trace calm (activation (closeButton (js "222")) carol))
      <-> user_id carol = user_id (author ask_aapl)
          /\ delivered (interaction_reply closing true)
               (interaction_trace calm (activation (closeButton (js "222")) carol)))
  /\ (user_id carol <> user_id (author ask_aapl) ->
      exists r',
        interaction_trace calm (activation (closeButton (js "222")) carol)
        = [Ev (interaction_reply denial true) r']).
Proof.
  assert (Hid : ~ In 95%N (user_id (author ask_aapl))).
  { vm_compute. intros H.
    repeat (destruct H as [H|H]; [discriminate H|]). exact H. }
  assert (H : In (Ev (thread_send (js "T1") (analysis (js "222") (js "ok"))
                        [[closeButton (js "222")]])
                     (fulfilled undefined))
                 (message_trace env0 calm ask_aapl))
    by (vm_compute; auto 10).
  split; [exact Hid|]. split; [exact H|].
  exact (opened_session_closed_by_author env0 calm calm ask_aapl (js "T1")
           (analysis (js "222") (js "ok")) (closeButton (js "222"))
           (fulfilled undefined) carol Hid H).
Defined.

Lemma console_hides_secret_values_on_redeploy :
  truthy (env_ALLOWED_CHANNEL_ID deployed) = truthy (env_ALLOWED_CHANNEL_ID redeployed)
  /\ truthy (env_BOT_TOKEN deployed) = truthy (env_BOT_TOKEN redeployed)
  /\ truthy (env_GEMINI_API_KEY deployed) = truthy (env_GEMINI_API_KEY redeployed)
  /\ printed (startup deployed (Some (js "KP Trades Bot#0001")))
     = printed (startup redeployed (Some (js "KP Trades Bot#0001"))).
Proof.
  split; [reflexivity|]. split; [reflexivity|]. split; [reflexivity|].
  apply (console_hides_secret_values deployed redeployed
           (Some (js "KP Trades Bot#0001"))); reflexivity.
Defined.
